(** * Crypto screener: indicator library, per-coin analysis and screening rules

    A shallow embedding of [bitcoin_price.py].  Prices are Python floats in the
    source; here every number is an exact rational ([Q]), so the statements
    below are statements about the arithmetic the code writes down, not about
    rounding.  Python's [None] is [option]'s [None]; a raised exception is the
    [Raise] outcome of the small error monad of module [Py]. *)

From Stdlib Require Import QArith ZArith List String Bool Lia Lqa Qabs Qminmax.
From Stdlib Require Import Ascii.
Import ListNotations.

(* ================================================================== *)
(** * The fragment of the Python runtime the script relies on          *)
(* ================================================================== *)

Module Py.

Inductive exn : Type :=
| ZeroDivisionError
| IndexError
| TypeError
| ExchangeError.

Inductive outcome (A : Type) : Type :=
| Return (a : A)
| Raise (e : exn).

Arguments Return {A} a.
Arguments Raise {A} e.

Definition bind {A B : Type} (m : outcome A) (k : A -> outcome B) : outcome B :=
  match m with
  | Return a => k a
  | Raise e => Raise e
  end.

Notation "x <- m ;; k" := (bind m (fun x => k))
  (at level 61, m at next level, right associativity).

(** [for x in xs: out.append(f(x))], stopping at the first exception. *)
Fixpoint for_each {A B : Type} (f : A -> outcome B) (xs : list A) : outcome (list B) :=
  match xs with
  | [] => Return []
  | x :: rest => y <- f x ;; ys <- for_each f rest ;; Return (y :: ys)
  end.

Open Scope Q_scope.

(** [x < y] on numbers. *)
Definition ltb (x y : Q) : bool := negb (Qle_bool y x).

(** Truth value of a number: everything but zero. *)
Definition truthy (x : Q) : bool := negb (Qeq_bool x 0).

(** [x / y], true division. *)
Definition truediv (x y : Q) : outcome Q :=
  if Qeq_bool y 0 then Raise ZeroDivisionError else Return (x / y).

(** [len(l)] *)
Definition len {A : Type} (l : list A) : Z := Z.of_nat (List.length l).

(** [sum(l)]: starts from 0 and adds from the left. *)
Definition sum (l : list Q) : Q := fold_left Qplus l 0.

(** A slice bound: a negative bound counts from the end and is clipped at
    the start of the list. *)
Definition bound {A : Type} (l : list A) (i : Z) : nat :=
  Z.to_nat (if (i <? 0)%Z then len l + i else i)%Z.

(** [l[i:]] *)
Definition slice_from {A : Type} (l : list A) (i : Z) : list A :=
  skipn (bound l i) l.

(** [l[:i]] *)
Definition slice_to {A : Type} (l : list A) (i : Z) : list A :=
  firstn (bound l i) l.

(** [l[i]]: a negative index counts from the end; out of range raises. *)
Definition index {A : Type} (l : list A) (i : Z) : outcome A :=
  let j := (if (i <? 0)%Z then len l + i else i)%Z in
  if (j <? 0)%Z then Raise IndexError
  else match nth_error l (Z.to_nat j) with
       | Some a => Return a
       | None => Raise IndexError
       end.

(** [range(a, b)] *)
Definition range (a b : Z) : list Z :=
  map (fun k => (a + Z.of_nat k)%Z) (seq 0 (Z.to_nat (b - a))).

(** [max(a, b, c)]: keeps the first maximal argument. *)
Definition max3 (a b c : Q) : Q :=
  let m := if ltb a b then b else a in
  if ltb m c then c else m.

(** [s.replace(old, new)] for a non-empty [old]: occurrences are replaced
    left to right without overlap; [skip] counts the characters of a matched
    occurrence still to be dropped. *)
Fixpoint replace_from (skip : nat) (old new s : string) : string :=
  match s with
  | EmptyString => EmptyString
  | String c rest =>
      match skip with
      | S k => replace_from k old new rest
      | O =>
          if String.prefix old s
          then (new ++ replace_from (String.length old - 1) old new rest)%string
          else String c (replace_from 0 old new rest)
      end
  end.

Definition replace (s old new : string) : string := replace_from 0 old new s.

End Py.

Import Py.
Open Scope Q_scope.

(* ================================================================== *)
(** * Indicator library                                                *)
(* ================================================================== *)

(** [calculate_sma(prices, period)] *)
Definition calculate_sma (prices : list Q) (period : Z) : outcome (option Q) :=
  if (len prices <? period)%Z then Return None
  else
    v <- truediv (sum (slice_from prices (- period))) (inject_Z period) ;;
    Return (Some v).

(** One turn of the loop of [calculate_ema]. *)
Definition ema_step (multiplier ema price : Q) : Q :=
  (price * multiplier) + (ema * (1 - multiplier)).

(** [calculate_ema(prices, period)] *)
Definition calculate_ema (prices : list Q) (period : Z) : outcome (option Q) :=
  if (len prices <? period)%Z then Return None
  else
    ema <- truediv (sum (slice_to prices period)) (inject_Z period) ;;
    multiplier <- truediv 2 (inject_Z (period + 1)) ;;
    Return (Some (fold_left (ema_step multiplier) (slice_from prices period) ema)).

(** The successive values of the variable [ema] in [calculate_ema]: the seed,
    then its value after each turn of the loop. *)
Fixpoint ema_states (multiplier ema : Q) (rest : list Q) : list Q :=
  match rest with
  | [] => [ema]
  | price :: rest' => ema :: ema_states multiplier (ema_step multiplier ema price) rest'
  end.

Definition ema_trajectory (prices : list Q) (period : Z) : outcome (option (list Q)) :=
  if (len prices <? period)%Z then Return None
  else
    ema <- truediv (sum (slice_to prices period)) (inject_Z period) ;;
    multiplier <- truediv 2 (inject_Z (period + 1)) ;;
    Return (Some (ema_states multiplier ema (slice_from prices period))).

(** The loop [for i in range(1, len(prices)): deltas.append(prices[i] - prices[i-1])]. *)
Definition price_changes (prices : list Q) : outcome (list Q) :=
  for_each (fun i => a <- index prices i ;; b <- index prices (i - 1) ;; Return (a - b))
           (range 1 (len prices)).

Definition gain_of (d : Q) : Q := if ltb 0 d then d else 0.
Definition loss_of (d : Q) : Q := if ltb d 0 then - d else 0.

(** [calculate_rsi(prices, period)] *)
Definition calculate_rsi (prices : list Q) (period : Z) : outcome (option Q) :=
  if (len prices <? period + 1)%Z then Return None
  else
    deltas <- price_changes prices ;;
    let gains := map gain_of (slice_from deltas (- period)) in
    let losses := map loss_of (slice_from deltas (- period)) in
    avg_gain <- truediv (sum gains) (inject_Z period) ;;
    avg_loss <- truediv (sum losses) (inject_Z period) ;;
    if Qeq_bool avg_loss 0 then Return (Some 100)
    else
      rs <- truediv avg_gain avg_loss ;;
      q <- truediv 100 (1 + rs) ;;
      Return (Some (100 - q)).

Definition BULLISH : string := "🟢 BULLISH".
Definition BEARISH : string := "🔴 BEARISH".

Record MACD : Type := mkMACD {
  macd_line : Q;
  signal_line : Q;
  histogram : Q;
  trend : string
}.

(** The loop of [calculate_macd] over the window end points [idxs]. *)
Fixpoint macd_history (prices : list Q) (fast slow : Z) (idxs : list Z)
         (macd_values : list Q) : outcome (list Q) :=
  match idxs with
  | [] => Return macd_values
  | i :: rest =>
      let price_window := slice_to prices (i + 1) in
      fast_ema_val <- calculate_ema price_window fast ;;
      slow_ema_val <- calculate_ema price_window slow ;;
      match fast_ema_val, slow_ema_val with
      | Some f, Some s => macd_history prices fast slow rest (macd_values ++ [f - s])
      | _, _ => macd_history prices fast slow rest macd_values
      end
  end.

(** [calculate_macd(prices, fast, slow, signal)] *)
Definition calculate_macd (prices : list Q) (fast slow signal : Z) : outcome (option MACD) :=
  if (len prices <? slow + signal)%Z then Return None
  else
    macd_values <- macd_history prices fast slow (range (slow - 1) (len prices)) [] ;;
    if (len macd_values <? signal)%Z then Return None
    else
      line <- index macd_values (-1) ;;
      sig <- calculate_ema macd_values signal ;;
      match sig with
      | None => Return None
      | Some sl =>
          Return (Some {| macd_line := line;
                          signal_line := sl;
                          histogram := line - sl;
                          trend := if ltb sl line then BULLISH else BEARISH |})
      end.

Definition NEAR_UPPER : string := "🔴 NEAR UPPER BAND (potentially overbought)".
Definition NEAR_LOWER : string := "🟢 NEAR LOWER BAND (potentially oversold)".
Definition ABOVE_UPPER : string := "🔴 ABOVE UPPER BAND (strongly overbought)".
Definition BELOW_LOWER : string := "🟢 BELOW LOWER BAND (strongly oversold)".
Definition BETWEEN : string := "⚪ BETWEEN BANDS (normal range)".

Record Bollinger : Type := mkBollinger {
  upper : Q;
  middle : Q;
  lower : Q;
  position : string
}.

(** The chain of tests that names the position of the price in the bands. *)
Definition classify (current_price upper lower distance_from_upper distance_from_lower : Q)
  : string :=
  if ltb distance_from_upper (5 # 100) then NEAR_UPPER
  else if ltb distance_from_lower (5 # 100) then NEAR_LOWER
  else if ltb upper current_price then ABOVE_UPPER
  else if ltb current_price lower then BELOW_LOWER
  else BETWEEN.

Section Bollinger.

(** [pow_half x] stands for [x ** 0.5] at a non-negative [x].  A square root
    is not rational in general, so its value is left open; at a negative
    argument Python answers a complex number, which the first comparison
    [band_width > 0] rejects with a [TypeError]. *)
Variable pow_half : Q -> Q.

(** [calculate_bollinger_bands(prices, period, std_dev)] *)
Definition calculate_bollinger_bands (prices : list Q) (period : Z) (std_dev : Q)
  : outcome (option Bollinger) :=
  if (len prices <? period)%Z then Return None
  else
    mid <- calculate_sma prices period ;;
    match mid with
    | None => Raise TypeError
    | Some middle =>
        let recent_prices := slice_from prices (- period) in
        let mean := middle in
        variance <- truediv (sum (map (fun p => (p - mean) ^ 2) recent_prices))
                            (inject_Z period) ;;
        current_price <- index prices (-1) ;;
        if ltb variance 0 then Raise TypeError
        else
          let std := pow_half variance in
          let upper := middle + (std_dev * std) in
          let lower := middle - (std_dev * std) in
          let band_width := upper - lower in
          distance_from_upper <-
            (if ltb 0 band_width then truediv (upper - current_price) band_width
             else Return 0) ;;
          distance_from_lower <-
            (if ltb 0 band_width then truediv (current_price - lower) band_width
             else Return 0) ;;
          Return (Some {| upper := upper;
                          middle := middle;
                          lower := lower;
                          position := classify current_price upper lower
                                               distance_from_upper distance_from_lower |})
    end.

End Bollinger.

(** The true range of the candle at index [i] of [calculate_atr]'s loop. *)
Definition true_range_at (ohlcv_data : list (list Q)) (i : Z) : outcome Q :=
  cur <- index ohlcv_data i ;;
  high <- index cur 2 ;;
  low <- index cur 3 ;;
  prev <- index ohlcv_data (i - 1) ;;
  prev_close <- index prev 4 ;;
  let tr1 := high - low in
  let tr2 := Qabs (high - prev_close) in
  let tr3 := Qabs (low - prev_close) in
  Return (max3 tr1 tr2 tr3).

(** [calculate_atr(ohlcv_data, period)] *)
Definition calculate_atr (ohlcv_data : list (list Q)) (period : Z) : outcome (option Q) :=
  if (len ohlcv_data <? period + 1)%Z then Return None
  else
    true_ranges <- for_each (true_range_at ohlcv_data) (range 1 (len ohlcv_data)) ;;
    if (len true_ranges <? period)%Z then Return None
    else
      atr <- truediv (sum (slice_from true_ranges (- period))) (inject_Z period) ;;
      Return (Some atr).

(* ================================================================== *)
(** * Per-coin analysis                                                *)
(* ================================================================== *)

(** The fields of the ticker dictionary that [analyze_coin] reads; the
    exchange may leave any of them [None]. *)
Record Ticker : Type := mkTicker {
  last : option Q;
  percentage : option Q;
  quoteVolume : option Q
}.

(** The two calls [analyze_coin] makes on the exchange object.  Either may
    fail, which the model records as a raised exception. *)
Record Exchange : Type := mkExchange {
  fetch_ticker : string -> outcome Ticker;
  fetch_ohlcv : string -> string -> Z -> outcome (list (list Q))
}.

Record CoinAnalysis : Type := mkCoinAnalysis {
  symbol : string;
  price : option Q;
  change_24h : option Q;
  volume_24h : option Q;
  sma_20 : option Q;
  sma_50 : option Q;
  rsi : option Q;
  rsi_trend : option string;
  macd : option MACD;
  volume_ratio : option Q;
  avg_volume_20d : option Q
}.

(** [(volume_24h / avg) if avg and avg > 0 else None]; dividing a missing
    volume is a [TypeError]. *)
Definition volume_ratio_of (volume_24h avg_volume_20d : option Q) : outcome (option Q) :=
  match avg_volume_20d with
  | Some avg =>
      if truthy avg && ltb 0 avg
      then match volume_24h with
           | Some v => r <- truediv v avg ;; Return (Some r)
           | None => Raise TypeError
           end
      else Return None
  | None => Return None
  end.

(** The comparison of the current RSI with the RSI one candle earlier. *)
Definition rsi_trend_of (closing_prices : list Q) (rsi_14 : option Q) : outcome (option string) :=
  if (15 <=? len closing_prices)%Z
  then
    rsi_prev <- calculate_rsi (slice_to closing_prices (-1)) 14 ;;
    match rsi_prev, rsi_14 with
    | Some p, Some r =>
        if ltb r p then Return (Some "DOWN"%string)
        else if ltb p r then Return (Some "UP"%string)
        else Return (Some "FLAT"%string)
    | _, _ => Return None
    end
  else Return None.

(** The body of the [try] block of [analyze_coin]. *)
Definition analyze_coin_body (exchange : Exchange) (sym : string)
  : outcome (option CoinAnalysis) :=
  ticker <- fetch_ticker exchange sym ;;
  let current_price := last ticker in
  let change := percentage ticker in
  let volume := quoteVolume ticker in
  ohlcv <- fetch_ohlcv exchange sym "1d" 60 ;;
  if (len ohlcv <? 50)%Z then Return None
  else
    closing_prices <- for_each (fun candle => index candle 4) ohlcv ;;
    volumes <- for_each (fun candle => index candle 5) ohlcv ;;
    s20 <- calculate_sma closing_prices 20 ;;
    s50 <- calculate_sma closing_prices 50 ;;
    rsi_14 <- calculate_rsi closing_prices 14 ;;
    m <- calculate_macd closing_prices 12 26 9 ;;
    avg <- (if (20 <=? len volumes)%Z then calculate_sma volumes 20 else Return None) ;;
    ratio <- volume_ratio_of volume avg ;;
    rtrend <- rsi_trend_of closing_prices rsi_14 ;;
    Return (Some {| symbol := replace sym "/USDT" "";
                    price := current_price;
                    change_24h := change;
                    volume_24h := volume;
                    sma_20 := s20;
                    sma_50 := s50;
                    rsi := rsi_14;
                    rsi_trend := rtrend;
                    macd := m;
                    volume_ratio := ratio;
                    avg_volume_20d := avg |}).

(** [analyze_coin(exchange, symbol)]: any exception ends in [None]. *)
Definition analyze_coin (exchange : Exchange) (sym : string) : option CoinAnalysis :=
  match analyze_coin_body exchange sym with
  | Return r => r
  | Raise _ => None
  end.

(* ================================================================== *)
(** * Screening rules                                                  *)
(* ================================================================== *)

Definition OVERSOLD : string := "🟢 OVERSOLD".
Definition OVERBOUGHT : string := "🔴 OVERBOUGHT".
Definition VOLUME_SPIKE : string := "📊 VOLUME SPIKE".
Definition BULLISH_SETUP : string := "🚀 BULLISH SETUP".
Definition BREAKDOWN_RISK : string := "⚠️  BREAKDOWN RISK".

(** Truth value of an optional number: [None] and zero are false. *)
Definition truthy_num (x : option Q) : bool :=
  match x with
  | Some v => truthy v
  | None => false
  end.

(** Truth value of an optional string: [None] and the empty string are false. *)
Definition truthy_str (x : option string) : bool :=
  match x with
  | Some s => negb (String.eqb s "")
  | None => false
  end.

(** [macd.get('trend', '').startswith(mark)] on a present MACD record. *)
Definition trend_startswith (m : option MACD) (mark : string) : bool :=
  match m with
  | Some r => String.prefix mark (trend r)
  | None => false
  end.

(** [a op b] on two numbers that the tests before it found present. *)
Definition cmp_present (op : Q -> Q -> bool) (a b : option Q) : bool :=
  match a, b with
  | Some x, Some y => op x y
  | _, _ => false
  end.

Definition is_some {A : Type} (x : option A) : bool :=
  match x with
  | Some _ => true
  | None => false
  end.

Definition oversold_rule (c : CoinAnalysis) : bool :=
  match rsi c with
  | Some r => ltb r 30
  | None => false
  end.

Definition overbought_rule (c : CoinAnalysis) : bool :=
  match rsi c with
  | Some r => ltb 70 r
  | None => false
  end.

Definition volume_spike_rule (c : CoinAnalysis) : bool :=
  match volume_ratio c with
  | Some v => ltb 2 v
  | None => false
  end.

Definition bullish_setup_rule (c : CoinAnalysis) : bool :=
  truthy_num (price c) && truthy_num (sma_20 c) && truthy_num (sma_50 c)
  && is_some (macd c) && is_some (rsi c)
  && cmp_present (fun p s => ltb s p) (price c) (sma_20 c)
  && cmp_present (fun p s => ltb s p) (price c) (sma_50 c)
  && trend_startswith (macd c) "🟢"
  && match rsi c with
     | Some r => Qle_bool 40 r && Qle_bool r 60
     | None => false
     end.

Definition breakdown_risk_rule (c : CoinAnalysis) : bool :=
  truthy_num (price c) && truthy_num (sma_20 c) && truthy_num (sma_50 c)
  && is_some (macd c) && is_some (rsi c) && truthy_str (rsi_trend c)
  && cmp_present ltb (price c) (sma_20 c)
  && cmp_present ltb (price c) (sma_50 c)
  && trend_startswith (macd c) "🔴"
  && match rsi_trend c with
     | Some t => String.eqb t "DOWN"
     | None => false
     end.

(** [alerts.append(label)] under a condition. *)
Definition append_if (cond : bool) (label : string) (alerts : list string) : list string :=
  if cond then alerts ++ [label] else alerts.

(** [screen_coin(coin_data)] *)
Definition screen_coin (coin_data : option CoinAnalysis) : list string :=
  let alerts := [] in
  match coin_data with
  | None => alerts
  | Some c =>
      let alerts := append_if (oversold_rule c) OVERSOLD alerts in
      let alerts := append_if (overbought_rule c) OVERBOUGHT alerts in
      let alerts := append_if (volume_spike_rule c) VOLUME_SPIKE alerts in
      let alerts := append_if (bullish_setup_rule c) BULLISH_SETUP alerts in
      let alerts := append_if (breakdown_risk_rule c) BREAKDOWN_RISK alerts in
      alerts
  end.

(* ================================================================== *)
(** * Reference definitions                                            *)
(* ================================================================== *)

(** A candle as the exchange delivers it.  Its row is
    [[timestamp, open, high, low, close, volume]]: the layout under which
    [analyze_coin] reads the closing price at index 4 and the volume at
    index 5. *)
Record Candle : Type := mkCandle {
  timestamp : Q;
  open : Q;
  high : Q;
  low : Q;
  close : Q;
  volume : Q
}.

Definition row_of (c : Candle) : list Q :=
  [timestamp c; open c; high c; low c; close c; volume c].

(** The values [g a b] over the adjacent pairs [a, b] of a list, in order. *)
Fixpoint adjacent {A B : Type} (g : A -> A -> B) (l : list A) : list B :=
  match l with
  | a :: (b :: _) as rest => g a b :: adjacent g rest
  | _ => []
  end.

(** The last [n] elements of a list (all of it when it is shorter). *)
Definition last_n {A : Type} (n : nat) (l : list A) : list A :=
  skipn (List.length l - n) l.

(** Arithmetic mean of a non-empty list. *)
Definition mean (l : list Q) : Q := sum l / inject_Z (len l).

(** True range of a candle given the candle before it. *)
Definition true_range (prev cur : Candle) : Q :=
  Qmax (Qmax (high cur - low cur) (Qabs (high cur - close prev)))
       (Qabs (low cur - close prev)).

(** The true range at every step [i >= 1] of a candle sequence. *)
Definition true_ranges (candles : list Candle) : list Q := adjacent true_range candles.

(** Seed with the mean of the first [period] values, then fold the
    recurrence [ema := price*k + ema*(1-k)], [k = 2/(period+1)], over the
    remaining values in series order. *)
Definition ema_reference (series : list Q) (period : nat) : Q :=
  let k := 2 / inject_Z (Z.of_nat period + 1) in
  fold_left (fun ema price => price * k + ema * (1 - k))
            (skipn period series)
            (mean (firstn period series)).

(** A price series in which no value is below the one before it. *)
Definition non_decreasing (prices : list Q) : Prop :=
  forall i a b, nth_error prices i = Some a -> nth_error prices (S i) = Some b -> a <= b.

(** The presence and threshold conditions of the BULLISH SETUP rule, read
    with "present" meaning "not [None]". *)
Definition bullish_setup_condition (c : CoinAnalysis) : Prop :=
  exists p s20 s50 m r,
    price c = Some p /\ sma_20 c = Some s20 /\ sma_50 c = Some s50 /\
    macd c = Some m /\ rsi c = Some r /\
    s20 < p /\ s50 < p /\ trend m = BULLISH /\ 40 <= r /\ r <= 60.

(** An integer square root on rationals, exact on the squares of integers. *)
Definition isqrt (x : Q) : Q := inject_Z (Z.sqrt (Qnum x / Zpos (Qden x))).

(** The last step of [calculate_rsi], from the two sums over the window. *)
Definition rsi_of_sums (gains losses : Q) (period : Z) : outcome (option Q) :=
  avg_gain <- truediv gains (inject_Z period) ;;
  avg_loss <- truediv losses (inject_Z period) ;;
  if Qeq_bool avg_loss 0 then Return (Some 100)
  else
    rs <- truediv avg_gain avg_loss ;;
    q <- truediv 100 (1 + rs) ;;
    Return (Some (100 - q)).

(** The fractional distance of the price from a band: the gap over the band
    width, and 0 when the width is not positive. *)
Definition fractional_distance (gap band_width : Q) : Q :=
  if ltb 0 band_width then gap / band_width else 0.

(** A record in which every field of the BULLISH SETUP rule is present and
    the 20-period average is 0. *)
Definition zero_average_coin : CoinAnalysis :=
  {| symbol := "ABC";
     price := Some 5;
     change_24h := Some 1;
     volume_24h := Some 1000;
     sma_20 := Some 0;
     sma_50 := Some 3;
     rsi := Some 50;
     rsi_trend := Some "UP"%string;
     macd := Some {| macd_line := 2; signal_line := 1; histogram := 1; trend := BULLISH |};
     volume_ratio := Some 1;
     avg_volume_20d := Some 1000 |}.

(** A window of [n] daily candles with closing prices wandering between 100
    and 106, and an exchange that serves it together with a full ticker. *)
Definition sample_candles (n : nat) : list Candle :=
  map (fun k => let c := inject_Z (100 + Z.of_nat ((k * 5) mod 7)) in
                mkCandle (inject_Z (Z.of_nat k)) c (c + 2) (c - 3) c 1000)
      (seq 0 n).

Definition sample_ticker : Ticker :=
  {| last := Some 105; percentage := Some (3 # 2); quoteVolume := Some 2500 |}.

Definition sample_exchange (n : nat) : Exchange :=
  {| fetch_ticker := fun _ => Return sample_ticker;
     fetch_ohlcv := fun _ _ _ => Return (map row_of (sample_candles n)) |}.

(* ================================================================== *)
(** * The batch run and the status column                              *)
(* ================================================================== *)

(** The loop of [run_multi_coin_screener]: the lists [all_coins] and
    [all_alerts] it builds, one entry per coin.  The progress lines and the
    pause between requests are left out. *)
Fixpoint screening_loop (exchange : Exchange) (coin_list : list string)
         (all_coins : list (option CoinAnalysis)) (all_alerts : list (list string))
  : list (option CoinAnalysis) * list (list string) :=
  match coin_list with
  | [] => (all_coins, all_alerts)
  | coin :: rest =>
      let sym := (coin ++ "/USDT")%string in
      let coin_data := analyze_coin exchange sym in
      let all_coins := all_coins ++ [coin_data] in
      let alerts := if is_some coin_data then screen_coin coin_data else [] in
      let all_alerts := all_alerts ++ [alerts] in
      screening_loop exchange rest all_coins all_alerts
  end.

(** The two lists [run_multi_coin_screener] hands to the report. *)
Definition run_multi_coin_screener (exchange : Exchange) (coin_list : list string)
  : list (option CoinAnalysis) * list (list string) :=
  screening_loop exchange coin_list [] [].

(** The variable [status] of a row of [print_summary_table]. *)
Definition summary_status (coin : CoinAnalysis) : string :=
  match rsi coin with
  | Some r =>
      if ltb r 30 then "🟢 Oversold"
      else if ltb 70 r then "🔴 Overbought"
      else "⚪ Normal"
  | None => ""
  end.

(** The variable [macd_status] of a row of [print_summary_table]. *)
Definition summary_macd_status (coin : CoinAnalysis) : string :=
  match macd coin with
  | Some m =>
      if String.prefix "🟢" (trend m) then "🟢 Bullish"
      else if String.prefix "🔴" (trend m) then "🔴 Bearish"
      else "N/A"
  | None => "N/A"
  end.


(** A price series in which every value is below the one before it. *)
Definition strictly_decreasing (prices : list Q) : Prop :=
  forall i a b, nth_error prices i = Some a -> nth_error prices (S i) = Some b -> b < a.

(** A coin name without the character [/]. *)
Definition slash_free (coin : string) : Prop :=
  ~ In "/"%char (list_ascii_of_string coin).

(* ================================================================== *)
(** * Facts about the runtime fragment                                 *)
(* ================================================================== *)

Lemma ltb_lt (x y : Q) : ltb x y = true <-> x < y.
Proof.
  unfold ltb. rewrite negb_true_iff, <- not_true_iff_false, Qle_bool_iff.
  split; [apply Qnot_le_lt | apply Qlt_not_le].
Qed.

Lemma ltb_ge (x y : Q) : ltb x y = false <-> y <= x.
Proof.
  unfold ltb. rewrite negb_false_iff. apply Qle_bool_iff.
Qed.

Lemma truediv_nonzero (x y : Q) : ~ y == 0 -> truediv x y = Return (x / y).
Proof.
  intros H. unfold truediv. destruct (Qeq_bool y 0) eqn:E; [|reflexivity].
  apply Qeq_bool_eq in E. contradiction.
Qed.

Lemma truediv_zero (x y : Q) : y == 0 -> truediv x y = Raise ZeroDivisionError.
Proof.
  intros H. unfold truediv. now rewrite (Qeq_eq_bool _ _ H).
Qed.

Lemma inject_Z_nonzero (z : Z) : z <> 0%Z -> ~ inject_Z z == 0.
Proof.
  intros H E. apply H. unfold Qeq in E. simpl in E. lia.
Qed.

Lemma max3_Qmax (a b c : Q) : max3 a b c = Qmax (Qmax a b) c.
Proof.
  assert (M : forall x y, (if ltb x y then y else x) = Qmax x y).
  { intros x y. unfold Qmax, GenericMinMax.gmax.
    destruct (ltb x y) eqn:E.
    - apply ltb_lt in E. rewrite Qlt_alt in E. now rewrite E.
    - apply ltb_ge in E. destruct (x ?= y) eqn:C; try reflexivity.
      rewrite <- Qlt_alt in C. apply Qle_not_lt in E. now elim E. }
  unfold max3. now rewrite !M.
Qed.

Lemma index_nth_error {A : Type} (l : list A) (i : nat) (a : A) :
  nth_error l i = Some a -> index l (Z.of_nat i) = Return a.
Proof.
  intros H. unfold index.
  destruct (Z.of_nat i <? 0)%Z eqn:E; [apply Z.ltb_lt in E; lia|].
  rewrite E, Nat2Z.id, H. reflexivity.
Qed.

Lemma index_last {A : Type} (l : list A) (a : A) : index (l ++ [a]) (-1) = Return a.
Proof.
  unfold index, len. change (-1 <? 0)%Z with true. cbv iota.
  rewrite length_app. simpl List.length.
  destruct (Z.of_nat (List.length l + 1) + -1 <? 0)%Z eqn:E; [apply Z.ltb_lt in E; lia|].
  replace (Z.to_nat (Z.of_nat (List.length l + 1) + -1)) with (List.length l) by lia.
  now rewrite nth_error_app2, Nat.sub_diag by lia.
Qed.

Lemma slice_from_last_n {A : Type} (l : list A) (p : Z) :
  (1 <= p)%Z -> slice_from l (- p) = last_n (Z.to_nat p) l.
Proof.
  intros H. unfold slice_from, last_n, bound, len.
  destruct (- p <? 0)%Z eqn:E; [|apply Z.ltb_ge in E; lia].
  f_equal. lia.
Qed.

Lemma slice_from_skipn {A : Type} (l : list A) (p : Z) :
  (0 <= p)%Z -> slice_from l p = skipn (Z.to_nat p) l.
Proof.
  intros H. unfold slice_from, bound.
  destruct (p <? 0)%Z eqn:E; [apply Z.ltb_lt in E; lia|reflexivity].
Qed.

Lemma slice_to_firstn {A : Type} (l : list A) (p : Z) :
  (0 <= p)%Z -> slice_to l p = firstn (Z.to_nat p) l.
Proof.
  intros H. unfold slice_to, bound.
  destruct (p <? 0)%Z eqn:E; [apply Z.ltb_lt in E; lia|reflexivity].
Qed.

Lemma Forall_slice_from {A : Type} (P : A -> Prop) (l : list A) (i : Z) :
  Forall P l -> Forall P (slice_from l i).
Proof.
  intros H. unfold slice_from.
  rewrite <- (firstn_skipn (bound l i) l) in H. now apply Forall_app in H.
Qed.

Lemma len_last_n {A : Type} (l : list A) (n : nat) :
  (n <= List.length l)%nat -> len (last_n n l) = Z.of_nat n.
Proof.
  intros H. unfold len, last_n. rewrite length_skipn. lia.
Qed.

Lemma len_firstn {A : Type} (l : list A) (n : nat) :
  (n <= List.length l)%nat -> len (firstn n l) = Z.of_nat n.
Proof.
  intros H. unfold len. rewrite length_firstn. lia.
Qed.

Lemma length_adjacent {A B : Type} (g : A -> A -> B) (l : list A) :
  List.length (adjacent g l) = (List.length l - 1)%nat.
Proof.
  induction l as [|a [|b t] IH]; simpl in *; try reflexivity.
  rewrite IH. lia.
Qed.

Lemma range_cons (a b : Z) : (a < b)%Z -> range a b = a :: range (a + 1) b.
Proof.
  intros H. unfold range.
  replace (Z.to_nat (b - a)) with (S (Z.to_nat (b - (a + 1)))) by lia.
  rewrite <- cons_seq, <- seq_shift, map_cons, map_map. f_equal; [lia|].
  apply map_ext. intros k. lia.
Qed.

Lemma range_nil (a b : Z) : (b <= a)%Z -> range a b = [].
Proof.
  intros H. unfold range. now replace (Z.to_nat (b - a)) with O by lia.
Qed.

Lemma length_range (a b : Z) : List.length (range a b) = Z.to_nat (b - a).
Proof.
  unfold range. now rewrite length_map, length_seq.
Qed.

(** An index loop from 1 that reads positions [i-1] and [i] computes over the
    adjacent pairs of the list. *)
Lemma for_each_range_adjacent {A B : Type} (l : list A) (f : Z -> outcome B)
      (g : A -> A -> B) :
  (forall i a b, nth_error l i = Some a -> nth_error l (S i) = Some b ->
                 f (Z.of_nat (S i)) = Return (g a b)) ->
  for_each f (range 1 (len l)) = Return (adjacent g l).
Proof.
  intros Hf.
  assert (G : forall (t pre : list A), l = pre ++ t ->
            for_each f (range (Z.of_nat (List.length pre) + 1) (len l))
            = Return (adjacent g t)).
  { induction t as [|a [|b t'] IH]; intros pre E.
    - rewrite range_nil; [reflexivity|]. subst l. unfold len. rewrite length_app. simpl. lia.
    - rewrite range_nil; [reflexivity|]. subst l. unfold len. rewrite length_app. simpl. lia.
    - rewrite range_cons by (subst l; unfold len; rewrite length_app; simpl; lia).
      cbn [for_each].
      change (adjacent g (a :: b :: t')) with (g a b :: adjacent g (b :: t')).
      replace (Z.of_nat (List.length pre) + 1)%Z with (Z.of_nat (S (List.length pre))) by lia.
      rewrite (Hf (List.length pre) a b).
      + specialize (IH (pre ++ [a])). rewrite length_app in IH. cbn [List.length] in IH.
        replace (Z.of_nat (S (List.length pre)) + 1)%Z
          with (Z.of_nat (List.length pre + 1) + 1)%Z by lia.
        rewrite IH; [reflexivity|]. subst l. now rewrite <- app_assoc.
      + subst l. now rewrite nth_error_app2, Nat.sub_diag by lia.
      + subst l. rewrite nth_error_app2 by lia.
        now replace (S (List.length pre) - List.length pre)%nat with 1%nat by lia. }
  apply (G l []). reflexivity.
Qed.

(* ================================================================== *)
(** * Average true range                                               *)
(* ================================================================== *)

Lemma len_map {A B : Type} (f : A -> B) (l : list A) : len (map f l) = len l.
Proof.
  unfold len. now rewrite length_map.
Qed.

Lemma true_range_at_row (candles : list Candle) (i : nat) (prev cur : Candle) :
  nth_error candles i = Some prev ->
  nth_error candles (S i) = Some cur ->
  true_range_at (map row_of candles) (Z.of_nat (S i)) = Return (true_range prev cur).
Proof.
  intros Hprev Hcur. unfold true_range_at.
  rewrite (index_nth_error _ (S i) (row_of cur)) by now rewrite nth_error_map, Hcur.
  replace (Z.of_nat (S i) - 1)%Z with (Z.of_nat i) by lia.
  rewrite (index_nth_error _ i (row_of prev)) by now rewrite nth_error_map, Hprev.
  unfold true_range. rewrite <- max3_Qmax. reflexivity.
Qed.

Lemma true_ranges_loop (candles : list Candle) :
  for_each (true_range_at (map row_of candles)) (range 1 (len (map row_of candles)))
  = Return (true_ranges candles).
Proof.
  rewrite len_map. apply for_each_range_adjacent. apply true_range_at_row.
Qed.

(** C1. For a candle sequence of length at least [period + 1] (and a period
    of at least 1), [calculate_atr] returns the arithmetic mean of the last
    [period] true ranges, the true range at step [i >= 1] being
    max(high_i - low_i, |high_i - prevClose|, |low_i - prevClose|) with high
    and low taken from candle [i] and prevClose the close of candle [i-1]. *)
Theorem atr_mean_of_last_true_ranges (candles : list Candle) (period : Z) :
  (1 <= period)%Z ->
  (period + 1 <= len candles)%Z ->
  calculate_atr (map row_of candles) period
  = Return (Some (mean (last_n (Z.to_nat period) (true_ranges candles)))).
Proof.
  intros Hp Hlen. unfold calculate_atr.
  rewrite true_ranges_loop, len_map.
  destruct (len candles <? period + 1)%Z eqn:E; [apply Z.ltb_lt in E; lia|].
  cbn [bind].
  assert (L : List.length (true_ranges candles) = (List.length candles - 1)%nat)
    by apply length_adjacent.
  unfold len in *.
  destruct (Z.of_nat (List.length (true_ranges candles)) <? period)%Z eqn:E';
    [apply Z.ltb_lt in E'; lia|].
  rewrite truediv_nonzero by (apply inject_Z_nonzero; lia).
  cbn [bind]. rewrite slice_from_last_n by lia.
  unfold mean. rewrite len_last_n by lia. now rewrite Z2Nat.id by lia.
Qed.

Lemma atr_mean_of_last_true_ranges_witness :
  let candles := [mkCandle 0 10 12 9 11 500; mkCandle 1 11 15 10 14 700;
                  mkCandle 2 14 14 8 9 900] in
  (1 <= 2)%Z /\ (2 + 1 <= len candles)%Z /\
  calculate_atr (map row_of candles) 2
  = Return (Some (mean (last_n 2 (true_ranges candles)))).
Proof.
  intros candles. split; [lia|]. split; [unfold len; simpl; lia|].
  apply (atr_mean_of_last_true_ranges candles 2); [lia | unfold len; simpl; lia].
Defined.

(** A row of five columns [[open, high, low, close, volume]] has nothing at
    index 5, where [analyze_coin] reads the volume: the rows carry the
    timestamp in front. *)
Example five_columns_have_no_volume (o h l c v : Q) :
  index [o; h; l; c; v] 5 = Raise IndexError /\
  index (row_of (mkCandle 0 o h l c v)) 5 = Return v /\
  index (row_of (mkCandle 0 o h l c v)) 4 = Return c.
Proof.
  repeat split.
Qed.

(** On three candles with highs 12, 15, 14, lows 9, 10, 8 and closes 11, 14, 9
    the true ranges are 5 and 6, and the 2-period ATR is 11/2. *)
Example atr_three_candles :
  exists atr,
    calculate_atr [[0; 10; 12; 9; 11; 500]; [1; 11; 15; 10; 14; 700]; [2; 14; 14; 8; 9; 900]] 2
    = Return (Some atr) /\ atr == 11 # 2.
Proof.
  eexists. split; [vm_compute; reflexivity | reflexivity].
Qed.

(** With a period of 0 the division by the period raises. *)
Example atr_period_zero :
  calculate_atr [[0; 10; 12; 9; 11; 500]; [1; 11; 15; 10; 14; 700]] 0
  = Raise ZeroDivisionError.
Proof.
  vm_compute. reflexivity.
Qed.

(* ================================================================== *)
(** * Minimum history                                                  *)
(* ================================================================== *)

Ltac short_input H :=
  match type of H with
  | (?a < ?b)%Z => rewrite (proj2 (Z.ltb_lt a b) H); reflexivity
  end.

(** C5. Each of SMA, EMA, RSI, MACD, Bollinger bands and ATR returns [None],
    which is no number at all, whenever its input is shorter than its minimum:
    [period] for SMA, EMA and Bollinger, [period + 1] for RSI and ATR,
    [slow + signal] for MACD; this for every choice of the periods. *)
Theorem short_history_is_unavailable
        (prices : list Q) (ohlcv_data : list (list Q))
        (period fast slow signal : Z) (std_dev : Q) (pow_half : Q -> Q) :
  ((len prices < period)%Z -> calculate_sma prices period = Return None) /\
  ((len prices < period)%Z -> calculate_ema prices period = Return None) /\
  ((len prices < period + 1)%Z -> calculate_rsi prices period = Return None) /\
  ((len prices < slow + signal)%Z -> calculate_macd prices fast slow signal = Return None) /\
  ((len prices < period)%Z ->
   calculate_bollinger_bands pow_half prices period std_dev = Return None) /\
  ((len ohlcv_data < period + 1)%Z -> calculate_atr ohlcv_data period = Return None).
Proof.
  repeat split; intros H.
  - unfold calculate_sma. short_input H.
  - unfold calculate_ema. short_input H.
  - unfold calculate_rsi. short_input H.
  - unfold calculate_macd. short_input H.
  - unfold calculate_bollinger_bands. short_input H.
  - unfold calculate_atr. short_input H.
Qed.

Lemma short_history_is_unavailable_witness :
  let prices := [3; 1; 2] in
  let rows := [[0; 10; 12; 9; 11; 500]; [1; 11; 15; 10; 14; 700]] in
  calculate_sma prices 4 = Return None /\
  calculate_ema prices 4 = Return None /\
  calculate_rsi prices 4 = Return None /\
  calculate_macd prices 1 2 2 = Return None /\
  calculate_bollinger_bands isqrt prices 4 2 = Return None /\
  calculate_atr rows 4 = Return None.
Proof.
  intros prices rows.
  destruct (short_history_is_unavailable prices rows 4 1 2 2 2 isqrt)
    as (Hsma & Hema & Hrsi & Hmacd & Hbb & Hatr).
  refine (conj (Hsma _) (conj (Hema _) (conj (Hrsi _) (conj (Hmacd _)
            (conj (Hbb _) (Hatr _))))));
    unfold len; simpl; lia.
Defined.

(* ================================================================== *)
(** * Exponential moving average                                       *)
(* ================================================================== *)

Lemma ema_states_last (k ema : Q) (rest : list Q) :
  List.last (ema_states k ema rest) 0 = fold_left (ema_step k) rest ema.
Proof.
  revert ema. induction rest as [|p rest IH]; intros ema; [reflexivity|].
  cbn [ema_states fold_left]. rewrite <- IH.
  destruct (ema_states k (ema_step k ema p) rest) eqn:E; [|reflexivity].
  destruct rest; discriminate.
Qed.

Lemma ema_states_head (k ema : Q) (rest : list Q) :
  hd_error (ema_states k ema rest) = Some ema.
Proof.
  destruct rest; reflexivity.
Qed.

(** The trajectory of [ema] starts at the seed and ends at the value
    [calculate_ema] returns. *)
Lemma ema_trajectory_ends (prices : list Q) (period : Z) (t : list Q) :
  ema_trajectory prices period = Return (Some t) ->
  calculate_ema prices period = Return (Some (List.last t 0)).
Proof.
  unfold ema_trajectory, calculate_ema.
  destruct (len prices <? period)%Z; [discriminate|].
  destruct (truediv (sum (slice_to prices period)) (inject_Z period)); [|discriminate].
  destruct (truediv 2 (inject_Z (period + 1))); [|discriminate].
  cbn [bind]. intros H. injection H as <-. now rewrite ema_states_last.
Qed.

(** For a series at least [period] long and a period of at least 1, the EMA
    is total and is the fold of the recurrence from the mean of the first
    [period] values. *)
Lemma calculate_ema_reference (series : list Q) (period : Z) :
  (1 <= period)%Z ->
  (period <= len series)%Z ->
  calculate_ema series period = Return (Some (ema_reference series (Z.to_nat period))).
Proof.
  intros Hp Hlen. unfold calculate_ema, ema_reference.
  destruct (len series <? period)%Z eqn:E; [apply Z.ltb_lt in E; lia|].
  rewrite !truediv_nonzero by (apply inject_Z_nonzero; lia).
  cbn [bind]. rewrite slice_to_firstn, slice_from_skipn by lia.
  unfold mean. rewrite len_firstn by (unfold len in Hlen; lia).
  rewrite Z2Nat.id by lia. reflexivity.
Qed.

(** C6. For a series with length >= period >= 1, [calculate_ema] equals the
    value obtained by seeding with the mean of the first [period] elements and
    folding [ema := price*k + ema*(1-k)], [k = 2/(period+1)], over the
    remaining elements in order; the variable [ema] starts at that seed.  On
    [[1,2,3,4,5]] with period 3 the trajectory is 2, 3, 4: the seed 2 is the
    mean of 1, 2, 3 and not of the last three values. *)
Theorem ema_seed_and_recurrence (series : list Q) (period : Z) :
  (1 <= period)%Z ->
  (period <= len series)%Z ->
  calculate_ema series period = Return (Some (ema_reference series (Z.to_nat period))) /\
  (exists t, ema_trajectory series period = Return (Some t) /\
             hd_error t = Some (mean (firstn (Z.to_nat period) series)) /\
             List.last t 0 = ema_reference series (Z.to_nat period)) /\
  (exists t, ema_trajectory [1; 2; 3; 4; 5] 3 = Return (Some t) /\
             Forall2 Qeq t [2; 3; 4]).
Proof.
  intros Hp Hlen. split; [now apply calculate_ema_reference|]. split.
  - pose proof (calculate_ema_reference series period Hp Hlen) as R.
    unfold ema_trajectory.
    destruct (len series <? period)%Z eqn:E; [apply Z.ltb_lt in E; lia|].
    rewrite !truediv_nonzero by (apply inject_Z_nonzero; lia).
    cbn [bind]. eexists. split; [reflexivity|]. split.
    + rewrite ema_states_head, slice_to_firstn by lia.
      unfold mean. rewrite len_firstn by (unfold len in Hlen; lia).
      now rewrite Z2Nat.id by lia.
    + rewrite ema_states_last.
      unfold calculate_ema in R. rewrite E in R.
      rewrite !truediv_nonzero in R by (apply inject_Z_nonzero; lia).
      cbn [bind] in R. now injection R.
  - eexists. split; [vm_compute; reflexivity|].
    repeat constructor.
Qed.

Lemma ema_seed_and_recurrence_witness :
  (1 <= 3)%Z /\ (3 <= len [1; 2; 3; 4; 5])%Z /\
  calculate_ema [1; 2; 3; 4; 5] 3 = Return (Some (ema_reference [1; 2; 3; 4; 5] 3)).
Proof.
  split; [lia|]. split; [unfold len; simpl; lia|].
  apply (ema_seed_and_recurrence [1; 2; 3; 4; 5] 3); [lia | unfold len; simpl; lia].
Defined.

(** The value of the example: EMA([1,2,3,4,5], 3) = 4. *)
Example ema_one_to_five :
  exists v, calculate_ema [1; 2; 3; 4; 5] 3 = Return (Some v) /\ v == 4.
Proof.
  eexists. split; [vm_compute; reflexivity | reflexivity].
Qed.

(* ================================================================== *)
(** * Relative strength index                                          *)
(* ================================================================== *)

Lemma fold_sum_nonneg (l : list Q) (acc : Q) :
  Forall (fun x => 0 <= x) l -> 0 <= acc -> 0 <= fold_left Qplus l acc.
Proof.
  intros H. revert acc. induction H as [|x l Hx _ IH]; intros acc Hacc; [exact Hacc|].
  cbn [fold_left]. apply IH. lra.
Qed.

Lemma fold_sum_zero (l : list Q) (acc : Q) :
  Forall (fun x => x == 0) l -> fold_left Qplus l acc == acc.
Proof.
  intros H. revert acc. induction H as [|x l Hx _ IH]; intros acc; [reflexivity|].
  cbn [fold_left]. rewrite IH. lra.
Qed.

Lemma gain_nonneg (d : Q) : 0 <= gain_of d.
Proof.
  unfold gain_of. destruct (ltb 0 d) eqn:E; [apply ltb_lt in E; lra | lra].
Qed.

Lemma loss_nonneg (d : Q) : 0 <= loss_of d.
Proof.
  unfold loss_of. destruct (ltb d 0) eqn:E; [apply ltb_lt in E; lra | lra].
Qed.

Lemma loss_of_rise (d : Q) : 0 <= d -> loss_of d == 0.
Proof.
  intros H. unfold loss_of. destruct (ltb d 0) eqn:E; [apply ltb_lt in E; lra | lra].
Qed.

Lemma sum_gains_nonneg (ds : list Q) : 0 <= sum (map gain_of ds).
Proof.
  apply fold_sum_nonneg; [|lra]. apply Forall_map, Forall_forall. intros; apply gain_nonneg.
Qed.

Lemma sum_losses_nonneg (ds : list Q) : 0 <= sum (map loss_of ds).
Proof.
  apply fold_sum_nonneg; [|lra]. apply Forall_map, Forall_forall. intros; apply loss_nonneg.
Qed.

Lemma price_changes_adjacent (prices : list Q) :
  price_changes prices = Return (adjacent (fun a b => b - a) prices).
Proof.
  unfold price_changes. apply for_each_range_adjacent. intros i a b Ha Hb.
  rewrite (index_nth_error _ _ _ Hb).
  replace (Z.of_nat (S i) - 1)%Z with (Z.of_nat i) by lia.
  now rewrite (index_nth_error _ _ _ Ha).
Qed.

Lemma adjacent_rises (prices : list Q) :
  non_decreasing prices -> Forall (fun d => 0 <= d) (adjacent (fun a b => b - a) prices).
Proof.
  induction prices as [|a [|b t] IH]; intros H; try constructor.
  - specialize (H O a b eq_refl eq_refl). lra.
  - apply IH. intros i x y Hx Hy. exact (H (S i) x y Hx Hy).
Qed.

Lemma calculate_rsi_sums (prices : list Q) (period : Z) :
  (period + 1 <= len prices)%Z ->
  calculate_rsi prices period
  = let ds := slice_from (adjacent (fun a b => b - a) prices) (- period) in
    rsi_of_sums (sum (map gain_of ds)) (sum (map loss_of ds)) period.
Proof.
  intros H. unfold calculate_rsi.
  destruct (len prices <? period + 1)%Z eqn:E; [apply Z.ltb_lt in E; lia|].
  rewrite price_changes_adjacent. reflexivity.
Qed.

Lemma rsi_of_sums_range (g l : Q) (period : Z) :
  0 <= g -> 0 <= l -> period <> 0%Z ->
  exists v, rsi_of_sums g l period = Return (Some v) /\ 0 <= v /\ v <= 100.
Proof.
  intros Hg Hl Hp. unfold rsi_of_sums.
  assert (P : ~ inject_Z period == 0) by now apply inject_Z_nonzero.
  rewrite !truediv_nonzero by exact P. cbn [bind].
  destruct (Qeq_bool (l / inject_Z period) 0) eqn:E.
  - exists 100. split; [reflexivity | lra].
  - apply Qeq_bool_neq in E.
    assert (L : 0 < l).
    { apply Qle_lteq in Hl. destruct Hl as [Hl|Hl]; [exact Hl|].
      elim E. rewrite <- Hl. field. exact P. }
    rewrite truediv_nonzero by exact E. cbn [bind].
    set (rs := g / inject_Z period / (l / inject_Z period)).
    assert (R : 0 <= rs).
    { assert (Q1 : rs == g / l) by (unfold rs; field; split; [lra | exact P]).
      rewrite Q1. apply Qle_shift_div_l; [exact L | lra]. }
    rewrite truediv_nonzero by lra. cbn [bind].
    eexists. split; [reflexivity|].
    assert (D1 : 0 <= 100 / (1 + rs)) by (apply Qle_shift_div_l; lra).
    assert (D2 : 100 / (1 + rs) <= 100) by (apply Qle_shift_div_r; lra).
    lra.
Qed.

(** C7. On a non-decreasing series of at least 15 prices the 14-period RSI
    is exactly 100: every loss is 0, so the average loss is 0 and the
    saturation rule answers instead of the division. *)
Theorem rsi_saturates_on_rising_prices (prices : list Q) :
  non_decreasing prices ->
  (15 <= len prices)%Z ->
  calculate_rsi prices 14 = Return (Some 100).
Proof.
  intros Hmono Hlen. rewrite calculate_rsi_sums by lia. cbv zeta.
  set (ds := slice_from _ _).
  assert (Z0 : sum (map loss_of ds) == 0).
  { apply fold_sum_zero. apply Forall_map.
    assert (F : Forall (fun d => 0 <= d) ds).
    { unfold ds. now apply Forall_slice_from, adjacent_rises. }
    revert F. apply Forall_impl. intros d. apply loss_of_rise. }
  unfold rsi_of_sums.
  rewrite !truediv_nonzero by (apply inject_Z_nonzero; lia). cbn [bind].
  rewrite (Qeq_eq_bool (sum (map loss_of ds) / inject_Z 14) 0); [reflexivity|].
  rewrite Z0. reflexivity.
Qed.

Lemma rsi_saturates_on_rising_prices_witness :
  let prices := [1; 1; 2; 3; 3; 4; 5; 6; 7; 7; 8; 9; 10; 11; 12; 12] in
  calculate_rsi prices 14 = Return (Some 100).
Proof.
  intros prices. apply (rsi_saturates_on_rising_prices prices).
  - intros i a b Ha Hb. subst prices.
    do 15 (destruct i as [|i];
           [cbn in Ha, Hb; injection Ha as <-; injection Hb as <-;
            unfold Qle; simpl; lia|]).
    destruct i; discriminate.
  - unfold len; simpl; lia.
Defined.

(** C8. For a series of length at least [period + 1], whatever number
    [calculate_rsi] returns lies between 0 and 100; and for every period
    other than 0 it does return a number. *)
Theorem rsi_between_0_and_100 (prices : list Q) (period : Z) :
  (period + 1 <= len prices)%Z ->
  (period <> 0%Z ->
   exists v, calculate_rsi prices period = Return (Some v) /\ 0 <= v /\ v <= 100) /\
  (forall v, calculate_rsi prices period = Return (Some v) -> 0 <= v /\ v <= 100).
Proof.
  intros Hlen. rewrite calculate_rsi_sums by exact Hlen. cbv zeta.
  set (ds := slice_from _ _).
  pose proof (sum_gains_nonneg ds) as G. pose proof (sum_losses_nonneg ds) as L.
  split.
  - intros Hp. now apply rsi_of_sums_range.
  - intros v Hv. destruct (Z.eq_dec period 0) as [->|Hp].
    + unfold rsi_of_sums in Hv. rewrite truediv_zero in Hv by reflexivity. discriminate.
    + destruct (rsi_of_sums_range _ _ period G L Hp) as (w & Hw & B).
      rewrite Hw in Hv. injection Hv as <-. exact B.
Qed.

Lemma rsi_between_0_and_100_witness :
  let prices := [10; 12; 11; 15; 14] in
  exists v, calculate_rsi prices 3 = Return (Some v) /\ 0 <= v /\ v <= 100.
Proof.
  intros prices.
  apply (rsi_between_0_and_100 prices 3); [unfold len; simpl; lia | lia].
Defined.

(** A mixed series: gains 4 and losses 2 over the last three changes of
    [10, 12, 11, 15, 14] give RSI = 100 - 100/(1 + 2) = 200/3. *)
Example rsi_mixed_series :
  exists v, calculate_rsi [10; 12; 11; 15; 14] 3 = Return (Some v) /\ v == 200 # 3.
Proof.
  eexists. split; [vm_compute; reflexivity | reflexivity].
Qed.

(** With a period of 0 the first division raises. *)
Example rsi_period_zero : calculate_rsi [10; 12; 11] 0 = Raise ZeroDivisionError.
Proof.
  vm_compute. reflexivity.
Qed.

(* ================================================================== *)
(** * Bollinger bands                                                  *)
(* ================================================================== *)

Lemma calculate_sma_total (prices : list Q) (period : Z) :
  (period <> 0)%Z ->
  (period <= len prices)%Z ->
  calculate_sma prices period
  = Return (Some (sum (slice_from prices (- period)) / inject_Z period)).
Proof.
  intros Hp Hlen. unfold calculate_sma.
  destruct (len prices <? period)%Z eqn:E; [apply Z.ltb_lt in E; lia|].
  now rewrite truediv_nonzero by now apply inject_Z_nonzero.
Qed.

Lemma index_last_nonempty {A : Type} (l : list A) :
  l <> [] -> exists a, index l (-1) = Return a.
Proof.
  intros H. destruct (exists_last H) as (l' & a & ->).
  exists a. apply index_last.
Qed.

Lemma sum_squares_nonneg (m : Q) (l : list Q) : 0 <= sum (map (fun p => (p - m) ^ 2) l).
Proof.
  apply fold_sum_nonneg; [|lra]. apply Forall_map, Forall_forall. intros p _.
  change ((p - m) ^ 2) with ((p - m) * (p - m)). generalize (p - m). intros x. nra.
Qed.

Lemma guarded_distance (gap band_width : Q) :
  (if ltb 0 band_width then truediv gap band_width else Return 0)
  = Return (fractional_distance gap band_width).
Proof.
  unfold fractional_distance. destruct (ltb 0 band_width) eqn:B; [|reflexivity].
  apply ltb_lt in B. apply truediv_nonzero. lra.
Qed.

(** What a returned record says about the position. *)
Lemma bollinger_position (pow_half : Q -> Q) (prices : list Q) (period : Z) (std_dev : Q)
      (r : Bollinger) :
  calculate_bollinger_bands pow_half prices period std_dev = Return (Some r) ->
  exists current_price,
    index prices (-1) = Return current_price /\
    position r = classify current_price (upper r) (lower r)
                   (fractional_distance (upper r - current_price) (upper r - lower r))
                   (fractional_distance (current_price - lower r) (upper r - lower r)).
Proof.
  unfold calculate_bollinger_bands.
  destruct (len prices <? period)%Z; [discriminate|].
  destruct (calculate_sma prices period) as [[mid|]|]; cbn [bind]; try discriminate.
  destruct (truediv _ (inject_Z period)) as [variance|]; cbn [bind]; [|discriminate].
  destruct (index prices (-1)) as [cur|]; cbn [bind]; [|discriminate].
  destruct (ltb variance 0); [discriminate|].
  rewrite !guarded_distance. cbn [bind].
  intros H. injection H as <-. exists cur. split; reflexivity.
Qed.

(** With a period of at least 1 and enough prices a record is returned. *)
Lemma bollinger_total (pow_half : Q -> Q) (prices : list Q) (period : Z) (std_dev : Q) :
  (1 <= period)%Z ->
  (period <= len prices)%Z ->
  exists r, calculate_bollinger_bands pow_half prices period std_dev = Return (Some r).
Proof.
  intros Hp Hlen. unfold calculate_bollinger_bands.
  destruct (len prices <? period)%Z eqn:E; [apply Z.ltb_lt in E; lia|].
  rewrite calculate_sma_total by lia. cbn [bind].
  rewrite truediv_nonzero by (apply inject_Z_nonzero; lia). cbn [bind].
  destruct (index_last_nonempty prices) as (cur & ->).
  { intros ->. unfold len in Hlen. simpl in Hlen. lia. }
  cbn [bind].
  set (mid := sum (slice_from prices (- period)) / inject_Z period).
  set (variance := _ / inject_Z period).
  assert (V : ltb variance 0 = false).
  { apply ltb_ge. unfold variance. apply Qle_shift_div_l.
    - change 0 with (inject_Z 0). rewrite <- Zlt_Qlt. lia.
    - pose proof (sum_squares_nonneg mid (slice_from prices (- period))). lra. }
  rewrite V, !guarded_distance. cbn [bind]. eexists. reflexivity.
Qed.

(** The two strict tests of [classify] come too late to fire. *)
Lemma classify_reachable (current_price up lo : Q) :
  let position := classify current_price up lo
                    (fractional_distance (up - current_price) (up - lo))
                    (fractional_distance (current_price - lo) (up - lo)) in
  position = NEAR_UPPER \/ position = NEAR_LOWER \/ position = BETWEEN.
Proof.
  cbv zeta. unfold classify, fractional_distance.
  destruct (ltb 0 (up - lo)) eqn:W.
  - apply ltb_lt in W.
    assert (S : forall gap, 5 # 100 <= gap / (up - lo) -> 0 < gap).
    { intros gap H. apply (Qmult_le_compat_r _ _ (up - lo)) in H; [|lra].
      assert (E : gap / (up - lo) * (up - lo) == gap) by (field; lra).
      rewrite E in H. nra. }
    destruct (ltb (_ / _) (5 # 100)) eqn:U; [now left|]. apply ltb_ge, S in U.
    destruct (ltb (_ / _) (5 # 100)) eqn:L; [now right; left|]. apply ltb_ge, S in L.
    destruct (ltb up current_price) eqn:A; [apply ltb_lt in A; lra|].
    destruct (ltb current_price lo) eqn:B; [apply ltb_lt in B; lra|].
    now right; right.
  - now left.
Qed.

(** C3. For a series at least [period] long: when the band width is
    positive and the most recent price is both within 5% of the upper band
    (fractional distance below 0.05) and strictly above the upper band, the
    position is "near upper", not "above upper", because the proximity tests
    come before the strict ones.  A record is returned for every period of at
    least 1. *)
Theorem bollinger_proximity_precedes_strict
        (pow_half : Q -> Q) (prices : list Q) (period : Z) (std_dev : Q) :
  (period <= len prices)%Z ->
  ((1 <= period)%Z ->
   exists r, calculate_bollinger_bands pow_half prices period std_dev = Return (Some r)) /\
  (forall r current_price,
     calculate_bollinger_bands pow_half prices period std_dev = Return (Some r) ->
     index prices (-1) = Return current_price ->
     0 < upper r - lower r ->
     (upper r - current_price) / (upper r - lower r) < 5 # 100 ->
     upper r < current_price ->
     position r = NEAR_UPPER /\ position r <> ABOVE_UPPER).
Proof.
  intros Hlen. split.
  - intros Hp. now apply bollinger_total.
  - intros r cur Hr Hcur Hw Hnear _.
    destruct (bollinger_position _ _ _ _ _ Hr) as (cur' & Hcur' & Hpos).
    rewrite Hcur in Hcur'. injection Hcur' as <-.
    rewrite Hpos. unfold classify, fractional_distance.
    rewrite (proj2 (ltb_lt _ _) Hw), (proj2 (ltb_lt _ _) Hnear).
    split; [reflexivity | discriminate].
Qed.

(** Nine prices of 0 followed by 10, period 10, two standard deviations:
    the mean is 1, the variance 9, the bands are -5 and 7, and the price 10
    lies above the upper band at fractional distance -1/4. *)
Lemma bollinger_proximity_precedes_strict_witness :
  let prices := [0; 0; 0; 0; 0; 0; 0; 0; 0; 10] in
  exists r current_price,
    calculate_bollinger_bands isqrt prices 10 2 = Return (Some r) /\
    index prices (-1) = Return current_price /\
    upper r == 7 /\ lower r == -5 /\ current_price == 10 /\
    0 < upper r - lower r /\
    (upper r - current_price) / (upper r - lower r) < 5 # 100 /\
    upper r < current_price /\
    position r = NEAR_UPPER /\ position r <> ABOVE_UPPER.
Proof.
  intros prices.
  assert (Hlen : (10 <= len prices)%Z) by (unfold len; simpl; lia).
  destruct (bollinger_proximity_precedes_strict isqrt prices 10 2 Hlen)
    as (Htotal & Hnear).
  destruct (Htotal ltac:(lia)) as (r & Hr).
  exists r, 10. specialize (Hnear r 10 Hr eq_refl).
  assert (Er : Return (Some r)
               = calculate_bollinger_bands isqrt prices 10 2) by (symmetry; exact Hr).
  vm_compute in Er. injection Er as ->.
  lazymatch type of Hnear with
  | ?W -> ?N -> ?A -> _ =>
      assert (Hw : W) by (vm_compute; reflexivity);
      assert (Hn : N) by (vm_compute; reflexivity);
      assert (Ha : A) by (vm_compute; reflexivity)
  end.
  split; [exact Hr|]. split; [reflexivity|].
  do 3 (split; [vm_compute; reflexivity|]).
  split; [exact Hw|]. split; [exact Hn|]. split; [exact Ha|].
  exact (Hnear Hw Hn Ha).
Defined.

(** C4. [calculate_bollinger_bands] never answers "above upper" or "below
    lower": a price above the upper band has a negative distance from it, a
    price below the lower band a negative distance from that one, and with a
    band width of 0 or less both distances are 0; so the strict tests are
    never reached with a true outcome and the position is one of "near
    upper", "near lower" and "between bands".  A record is returned for every
    series at least [period] long. *)
Theorem bollinger_strict_positions_unreachable
        (pow_half : Q -> Q) (prices : list Q) (period : Z) (std_dev : Q) :
  (period <= len prices)%Z ->
  ((1 <= period)%Z ->
   exists r, calculate_bollinger_bands pow_half prices period std_dev = Return (Some r)) /\
  (forall r,
     calculate_bollinger_bands pow_half prices period std_dev = Return (Some r) ->
     (position r = NEAR_UPPER \/ position r = NEAR_LOWER \/ position r = BETWEEN) /\
     position r <> ABOVE_UPPER /\ position r <> BELOW_LOWER).
Proof.
  intros Hlen. split.
  - intros Hp. now apply bollinger_total.
  - intros r Hr.
    destruct (bollinger_position _ _ _ _ _ Hr) as (cur & _ & Hpos).
    pose proof (classify_reachable cur (upper r) (lower r)) as C. cbv zeta in C.
    rewrite <- Hpos in C. split; [exact C|].
    destruct C as [-> | [-> | ->]]; split; discriminate.
Qed.

Lemma bollinger_strict_positions_unreachable_witness :
  let prices := [0; 0; 0; 0; 0; 0; 0; 0; 0; 10] in
  exists r,
    calculate_bollinger_bands isqrt prices 10 2 = Return (Some r) /\
    (position r = NEAR_UPPER \/ position r = NEAR_LOWER \/ position r = BETWEEN) /\
    position r <> ABOVE_UPPER /\ position r <> BELOW_LOWER.
Proof.
  intros prices.
  assert (Hlen : (10 <= len prices)%Z) by (unfold len; simpl; lia).
  destruct (bollinger_strict_positions_unreachable isqrt prices 10 2 Hlen)
    as (Htotal & Hsafe).
  destruct (Htotal ltac:(lia)) as (r & Hr).
  exists r. split; [exact Hr | exact (Hsafe r Hr)].
Defined.

(** A price inside the bands: [[0, 4, 0, 4, 0, 4, 0, 4]] over 8 periods has
    mean 2 and variance 4, so the bands are -2 and 6 and the price 4 is
    "between bands". *)
Example bollinger_between :
  exists r, calculate_bollinger_bands isqrt [0; 4; 0; 4; 0; 4; 0; 4] 8 2 = Return (Some r) /\
            position r = BETWEEN.
Proof.
  eexists. split; vm_compute; reflexivity.
Qed.

(* ================================================================== *)
(** * Screening rules                                                  *)
(* ================================================================== *)

Lemma in_append_if (a label : string) (cond : bool) (alerts : list string) :
  In a (append_if cond label alerts) <-> In a alerts \/ (cond = true /\ a = label).
Proof.
  unfold append_if. destruct cond.
  - rewrite in_app_iff. simpl. intuition congruence.
  - intuition congruence.
Qed.

(** An alert is in the list exactly when its rule holds. *)
Lemma in_screen_coin (a : string) (c : CoinAnalysis) :
  In a (screen_coin (Some c)) <->
  (oversold_rule c = true /\ a = OVERSOLD) \/
  (overbought_rule c = true /\ a = OVERBOUGHT) \/
  (volume_spike_rule c = true /\ a = VOLUME_SPIKE) \/
  (bullish_setup_rule c = true /\ a = BULLISH_SETUP) \/
  (breakdown_risk_rule c = true /\ a = BREAKDOWN_RISK).
Proof.
  unfold screen_coin. cbv zeta. rewrite !in_append_if. simpl. tauto.
Qed.

Lemma oversold_alert (c : CoinAnalysis) :
  In OVERSOLD (screen_coin (Some c)) <-> exists r, rsi c = Some r /\ r < 30.
Proof.
  rewrite in_screen_coin. unfold oversold_rule. split.
  - intros [[H _] | [[_ H] | [[_ H] | [[_ H] | [_ H]]]]]; try discriminate.
    destruct (rsi c) as [r|]; [|discriminate]. exists r. split; [reflexivity|].
    now apply ltb_lt.
  - intros (r & -> & H). left. split; [now apply ltb_lt | reflexivity].
Qed.

Lemma overbought_alert (c : CoinAnalysis) :
  In OVERBOUGHT (screen_coin (Some c)) <-> exists r, rsi c = Some r /\ 70 < r.
Proof.
  rewrite in_screen_coin. unfold overbought_rule. split.
  - intros [[_ H] | [[H _] | [[_ H] | [[_ H] | [_ H]]]]]; try discriminate.
    destruct (rsi c) as [r|]; [|discriminate]. exists r. split; [reflexivity|].
    now apply ltb_lt.
  - intros (r & -> & H). right; left. split; [now apply ltb_lt | reflexivity].
Qed.

(** The BULLISH SETUP alert, as the code decides it: the price and the two
    averages must be present and different from 0. *)
Lemma bullish_setup_alert (c : CoinAnalysis) :
  In BULLISH_SETUP (screen_coin (Some c)) <->
  exists p s20 s50 m r,
    price c = Some p /\ sma_20 c = Some s20 /\ sma_50 c = Some s50 /\
    macd c = Some m /\ rsi c = Some r /\
    ~ p == 0 /\ ~ s20 == 0 /\ ~ s50 == 0 /\
    s20 < p /\ s50 < p /\ String.prefix "🟢" (trend m) = true /\ 40 <= r /\ r <= 60.
Proof.
  rewrite in_screen_coin. unfold bullish_setup_rule. split.
  - intros [[_ H] | [[_ H] | [[_ H] | [[H _] | [_ H]]]]]; try discriminate.
    destruct (price c) as [p|], (sma_20 c) as [s20|], (sma_50 c) as [s50|],
             (macd c) as [m|], (rsi c) as [r|];
      cbn [truthy_num is_some cmp_present trend_startswith andb] in H;
      rewrite ?andb_false_r in H; try discriminate.
    exists p, s20, s50, m, r. unfold truthy in *.
    repeat match goal with
           | X : (_ && _) = true |- _ => apply andb_prop in X; destruct X
           | X : negb _ = true |- _ => apply negb_true_iff, Qeq_bool_neq in X
           | X : ltb _ _ = true |- _ => apply ltb_lt in X
           | X : Qle_bool _ _ = true |- _ => apply Qle_bool_iff in X
           end.
    repeat split; assumption.
  - intros (p & s20 & s50 & m & r & -> & -> & -> & -> & -> & Hp & H20 & H50 &
            L20 & L50 & T & R1 & R2).
    right; right; right; left. split; [|reflexivity].
    cbn [truthy_num is_some cmp_present trend_startswith]. unfold truthy.
    assert (N : forall x, ~ x == 0 -> negb (Qeq_bool x 0) = true).
    { intros x Hx. apply negb_true_iff. destruct (Qeq_bool x 0) eqn:E; [|reflexivity].
      apply Qeq_bool_eq in E. contradiction. }
    rewrite !N by assumption.
    rewrite (proj2 (ltb_lt _ _) L20), (proj2 (ltb_lt _ _) L50), T.
    rewrite (proj2 (Qle_bool_iff _ _) R1), (proj2 (Qle_bool_iff _ _) R2).
    reflexivity.
Qed.

(** C10. The alert list never holds both OVERSOLD and OVERBOUGHT: no RSI
    value is below 30 and above 70. *)
Theorem oversold_excludes_overbought (coin_data : option CoinAnalysis) :
  ~ (In OVERSOLD (screen_coin coin_data) /\ In OVERBOUGHT (screen_coin coin_data)).
Proof.
  destruct coin_data as [c|]; [|intros [[] _]].
  rewrite oversold_alert, overbought_alert.
  intros [(r & Hr & Hlow) (r' & Hr' & Hhigh)].
  rewrite Hr in Hr'. injection Hr' as <-. lra.
Qed.

(** For the trend labels [calculate_macd] produces and a price and averages
    other than 0, the alert is emitted exactly under the conditions of the
    rule. *)
Lemma bullish_setup_nonzero (c : CoinAnalysis) :
  (forall p, price c = Some p -> ~ p == 0) ->
  (forall s, sma_20 c = Some s -> ~ s == 0) ->
  (forall s, sma_50 c = Some s -> ~ s == 0) ->
  (forall m, macd c = Some m -> trend m = BULLISH \/ trend m = BEARISH) ->
  In BULLISH_SETUP (screen_coin (Some c)) <-> bullish_setup_condition c.
Proof.
  intros Np N20 N50 Tm. rewrite bullish_setup_alert. unfold bullish_setup_condition.
  split.
  - intros (p & s20 & s50 & m & r & Hp & H20 & H50 & Hm & Hr & _ & _ & _ & L20 & L50 & T & R).
    exists p, s20, s50, m, r. repeat (split; [assumption|]).
    split; [|exact R].
    destruct (Tm m Hm) as [E|E]; [exact E|]. rewrite E in T. discriminate.
  - intros (p & s20 & s50 & m & r & Hp & H20 & H50 & Hm & Hr & L20 & L50 & T & R).
    exists p, s20, s50, m, r. repeat (split; [assumption|]).
    split; [now apply Np|]. split; [now apply N20|]. split; [now apply N50|].
    repeat (split; [assumption|]). split; [now rewrite T | exact R].
Qed.

(** C2, at a record whose 20-period average is present and equal to 0: all of
    price, sma20, sma50, macd and rsi are present, 5 > 0, 5 > 3, the trend is
    BULLISH and the RSI is 50, yet [screen_coin] emits no BULLISH SETUP,
    because the rule tests the price and the averages for truth, and 0 is
    false, where it tests the RSI with [is not None]. *)
Theorem bullish_setup_missed_on_zero_average :
  bullish_setup_condition zero_average_coin /\
  ~ In BULLISH_SETUP (screen_coin (Some zero_average_coin)) /\
  screen_coin (Some zero_average_coin) = [].
Proof.
  split; [|split].
  - exists 5, 0, 3, {| macd_line := 2; signal_line := 1; histogram := 1; trend := BULLISH |}, 50.
    repeat (split; [reflexivity|]). split; discriminate.
  - vm_compute. tauto.
  - vm_compute. reflexivity.
Qed.

(* ================================================================== *)
(** * Per-coin analysis: the 50-candle gate                            *)
(* ================================================================== *)

Lemma for_each_total {A B : Type} (f : A -> outcome B) (g : A -> B) (l : list A) :
  (forall x, In x l -> f x = Return (g x)) -> for_each f l = Return (map g l).
Proof.
  induction l as [|x l IH]; intros H; [reflexivity|].
  cbn [for_each map]. rewrite (H x (or_introl eq_refl)). cbn [bind].
  rewrite IH by (intros y Hy; apply H; now right). reflexivity.
Qed.

Lemma for_each_map {A B C : Type} (f : B -> outcome C) (h : A -> B) (l : list A) :
  for_each f (map h l) = for_each (fun x => f (h x)) l.
Proof.
  induction l as [|x l IH]; [reflexivity|]. cbn [for_each map]. now rewrite IH.
Qed.

Lemma closing_prices_of_rows (candles : list Candle) :
  for_each (fun candle => index candle 4) (map row_of candles) = Return (map close candles).
Proof.
  rewrite for_each_map. now apply for_each_total.
Qed.

Lemma volumes_of_rows (candles : list Candle) :
  for_each (fun candle => index candle 5) (map row_of candles) = Return (map volume candles).
Proof.
  rewrite for_each_map. now apply for_each_total.
Qed.

Lemma in_range (i a b : Z) : In i (range a b) -> (a <= i < b)%Z.
Proof.
  unfold range. rewrite in_map_iff. intros (k & <- & Hk). apply in_seq in Hk. lia.
Qed.

Lemma len_slice_to {A : Type} (l : list A) (i : Z) :
  (0 <= i <= len l)%Z -> len (slice_to l i) = i.
Proof.
  intros H. rewrite slice_to_firstn by lia. unfold len in *.
  rewrite length_firstn. lia.
Qed.

Lemma len_slice_to_minus_1 {A : Type} (l : list A) :
  (1 <= len l)%Z -> len (slice_to l (-1)) = (len l - 1)%Z.
Proof.
  intros H. unfold slice_to, bound. change (-1 <? 0)%Z with true. cbv iota.
  unfold len in *. rewrite length_firstn. lia.
Qed.

Lemma calculate_ema_total (prices : list Q) (period : Z) :
  (1 <= period)%Z -> (period <= len prices)%Z ->
  exists v, calculate_ema prices period = Return (Some v).
Proof.
  intros Hp Hlen. eexists. now apply calculate_ema_reference.
Qed.

(** Every window of at least [slow >= fast] prices adds one value to the
    MACD history. *)
Lemma macd_history_total (prices : list Q) (fast slow : Z) (idxs : list Z) :
  (1 <= fast <= slow)%Z ->
  Forall (fun i => slow - 1 <= i < len prices)%Z idxs ->
  forall acc, exists vals,
    macd_history prices fast slow idxs acc = Return (acc ++ vals) /\
    List.length vals = List.length idxs.
Proof.
  intros Hf H. induction H as [|i idxs Hi _ IH]; intros acc.
  - exists []. now rewrite app_nil_r.
  - cbn [macd_history]. cbv zeta.
    assert (W : len (slice_to prices (i + 1)) = (i + 1)%Z) by (apply len_slice_to; lia).
    destruct (calculate_ema_total (slice_to prices (i + 1)) fast) as (f & ->); [lia | lia |].
    destruct (calculate_ema_total (slice_to prices (i + 1)) slow) as (s & ->); [lia | lia |].
    cbn [bind]. destruct (IH (acc ++ [f - s])) as (vals & E & L).
    exists ((f - s) :: vals). rewrite E, <- app_assoc. split; [reflexivity|].
    cbn [List.length]. now rewrite L.
Qed.

Lemma calculate_macd_total (prices : list Q) (fast slow signal : Z) :
  (1 <= fast <= slow)%Z -> (1 <= signal)%Z -> (slow + signal <= len prices)%Z ->
  exists m, calculate_macd prices fast slow signal = Return (Some m) /\
            (trend m = BULLISH \/ trend m = BEARISH).
Proof.
  intros Hf Hs Hlen. unfold calculate_macd.
  destruct (len prices <? slow + signal)%Z eqn:E; [apply Z.ltb_lt in E; lia|].
  destruct (macd_history_total prices fast slow (range (slow - 1) (len prices)) Hf)
    with (acc := @nil Q) as (vals & -> & L).
  { apply Forall_forall. intros i Hi. now apply in_range in Hi. }
  cbn [bind app]. rewrite length_range in L.
  assert (V : (signal <= len vals)%Z) by (unfold len in *; lia).
  destruct (len vals <? signal)%Z eqn:E'; [apply Z.ltb_lt in E'; lia|].
  destruct (index_last_nonempty vals) as (line & ->).
  { intros ->. unfold len in V. simpl in V. lia. }
  destruct (calculate_ema_total vals signal Hs V) as (sl & ->).
  cbn [bind]. eexists. split; [reflexivity|].
  cbn [trend]. destruct (ltb sl line); [now left | now right].
Qed.

Lemma calculate_rsi_total (prices : list Q) (period : Z) :
  period <> 0%Z -> (period + 1 <= len prices)%Z ->
  exists v, calculate_rsi prices period = Return (Some v) /\ 0 <= v /\ v <= 100.
Proof.
  intros Hp Hlen. rewrite calculate_rsi_sums by exact Hlen. cbv zeta.
  apply rsi_of_sums_range; [apply sum_gains_nonneg | apply sum_losses_nonneg | exact Hp].
Qed.

Lemma rsi_trend_of_total (closing_prices : list Q) (r : Q) :
  (16 <= len closing_prices)%Z ->
  exists t, rsi_trend_of closing_prices (Some r) = Return (Some t).
Proof.
  intros Hlen. unfold rsi_trend_of.
  destruct (15 <=? len closing_prices)%Z eqn:E; [|apply Z.leb_gt in E; lia].
  destruct (calculate_rsi_total (slice_to closing_prices (-1)) 14) as (p & -> & _).
  - lia.
  - rewrite len_slice_to_minus_1; lia.
  - cbn [bind]. destruct (ltb r p); [|destruct (ltb p r)]; eexists; reflexivity.
Qed.

Lemma volume_ratio_of_present (v avg : Q) :
  exists ratio, volume_ratio_of (Some v) (Some avg) = Return ratio /\
                (0 < avg -> ratio = Some (v / avg)) /\
                (avg <= 0 -> ratio = None).
Proof.
  unfold volume_ratio_of, truthy.
  destruct (Qeq_bool avg 0) eqn:Z0; cbn [negb andb].
  - apply Qeq_bool_eq in Z0. exists None. split; [reflexivity|]. split; [lra | reflexivity].
  - apply Qeq_bool_neq in Z0. destruct (ltb 0 avg) eqn:P.
    + apply ltb_lt in P. rewrite truediv_nonzero by exact Z0. cbn [bind].
      eexists. split; [reflexivity|]. split; [reflexivity | lra].
    + apply ltb_ge in P. exists None. split; [reflexivity|]. split; [lra | reflexivity].
Qed.

(** C9. With the three snapshot fields present, [analyze_coin] answers
    [None] on fewer than 50 candles, in particular on exactly 49, although
    SMA(20), RSI(14) and MACD(12, 26, 9) are available on those closing
    prices; and on 50 candles or more, in particular on exactly 50, it
    answers a record that carries the snapshot and in which both averages,
    the RSI, its trend, the MACD and the average volume are present, the
    volume ratio being present exactly when the average volume is positive. *)
Theorem fifty_candle_gate
        (exchange : Exchange) (sym : string) (ticker : Ticker) (candles : list Candle)
        (p ch vol : Q) :
  fetch_ticker exchange sym = Return ticker ->
  last ticker = Some p ->
  percentage ticker = Some ch ->
  quoteVolume ticker = Some vol ->
  fetch_ohlcv exchange sym "1d" 60 = Return (map row_of candles) ->
  let closes := map close candles in
  ((len candles < 50)%Z -> analyze_coin exchange sym = None) /\
  ((len candles = 49)%Z ->
   exists s r m, calculate_sma closes 20 = Return (Some s) /\
                 calculate_rsi closes 14 = Return (Some r) /\
                 calculate_macd closes 12 26 9 = Return (Some m)) /\
  ((50 <= len candles)%Z ->
   exists a,
     analyze_coin exchange sym = Some a /\
     price a = Some p /\ change_24h a = Some ch /\ volume_24h a = Some vol /\
     calculate_sma closes 20 = Return (sma_20 a) /\
     calculate_sma closes 50 = Return (sma_50 a) /\
     calculate_rsi closes 14 = Return (rsi a) /\
     calculate_macd closes 12 26 9 = Return (macd a) /\
     is_some (sma_20 a) = true /\ is_some (sma_50 a) = true /\
     is_some (rsi a) = true /\ is_some (macd a) = true /\
     is_some (rsi_trend a) = true /\
     (exists avg, avg_volume_20d a = Some avg /\
                  (0 < avg -> volume_ratio a = Some (vol / avg)) /\
                  (avg <= 0 -> volume_ratio a = None))).
Proof.
  intros Ht Hp Hch Hvol Ho closes.
  assert (Lc : len closes = len candles) by apply len_map.
  split; [|split].
  - intros Hlen. unfold analyze_coin, analyze_coin_body.
    rewrite Ht, Ho. cbn [bind]. rewrite len_map.
    now rewrite (proj2 (Z.ltb_lt _ _) Hlen).
  - intros Hlen.
    destruct (calculate_rsi_total closes 14) as (r & Hr & _); [lia | lia |].
    destruct (calculate_macd_total closes 12 26 9) as (m & Hm & _); [lia | lia | lia |].
    eexists _, r, m. split; [apply calculate_sma_total; lia|]. split; assumption.
  - intros Hlen. unfold analyze_coin, analyze_coin_body.
    rewrite Ht, Ho. cbn [bind]. rewrite len_map.
    destruct (len candles <? 50)%Z eqn:E; [apply Z.ltb_lt in E; lia|].
    rewrite closing_prices_of_rows, volumes_of_rows. cbn [bind]. fold closes.
    assert (Lv : len (map volume candles) = len candles) by apply len_map.
    rewrite !(calculate_sma_total closes) by lia. cbn [bind].
    destruct (calculate_rsi_total closes 14) as (r & Hr & _); [lia | lia |].
    destruct (calculate_macd_total closes 12 26 9) as (m & Hm & _); [lia | lia | lia |].
    rewrite Hr, Hm. cbn [bind].
    destruct (20 <=? len (map volume candles))%Z eqn:E20; [|apply Z.leb_gt in E20; lia].
    rewrite calculate_sma_total by lia. cbn [bind].
    rewrite Hvol.
    set (avg := sum (slice_from (map volume candles) (- (20))) / inject_Z 20).
    destruct (volume_ratio_of_present vol avg) as (ratio & -> & Rpos & Rneg).
    destruct (rsi_trend_of_total closes r) as (t & ->); [lia|].
    cbn [bind]. eexists. split; [reflexivity|].
    cbn [price change_24h volume_24h sma_20 sma_50 rsi macd rsi_trend
         avg_volume_20d volume_ratio is_some].
    repeat (split; [first [assumption | reflexivity]|]).
    exists avg. split; [reflexivity|]. split; assumption.
Qed.

Lemma fifty_candle_gate_witness :
  analyze_coin (sample_exchange 49) "BTC/USDT" = None /\
  (exists s r m,
      calculate_sma (map close (sample_candles 49)) 20 = Return (Some s) /\
      calculate_rsi (map close (sample_candles 49)) 14 = Return (Some r) /\
      calculate_macd (map close (sample_candles 49)) 12 26 9 = Return (Some m)) /\
  exists a,
    analyze_coin (sample_exchange 50) "BTC/USDT" = Some a /\
    price a = Some 105 /\
    is_some (sma_20 a) = true /\ is_some (sma_50 a) = true /\
    is_some (rsi a) = true /\ is_some (macd a) = true /\
    is_some (rsi_trend a) = true /\
    exists ratio, volume_ratio a = Some ratio /\ ratio == 5 # 2.
Proof.
  destruct (fifty_candle_gate (sample_exchange 49) "BTC/USDT" sample_ticker
                              (sample_candles 49) 105 (3 # 2) 2500
                              eq_refl eq_refl eq_refl eq_refl eq_refl)
    as (Hnone & Hind & _).
  destruct (fifty_candle_gate (sample_exchange 50) "BTC/USDT" sample_ticker
                              (sample_candles 50) 105 (3 # 2) 2500
                              eq_refl eq_refl eq_refl eq_refl eq_refl)
    as (_ & _ & Hfull).
  split; [apply Hnone; vm_compute; reflexivity|].
  split; [apply Hind; vm_compute; reflexivity|].
  destruct Hfull as (a & Ha & Hprice & _ & _ & _ & _ & _ & _ & H20 & H50 & Hr & Hm & Ht & Hv).
  { vm_compute. discriminate. }
  exists a. repeat (split; [assumption|]).
  clear Hv.
  assert (E : Some a = analyze_coin (sample_exchange 50) "BTC/USDT") by (symmetry; exact Ha).
  vm_compute in E. injection E as ->.
  eexists. split; [reflexivity | vm_compute; reflexivity].
Defined.

(** The symbol of the record is the pair without its quote currency. *)
Example symbol_of_pair : replace "BTC/USDT" "/USDT" "" = "BTC"%string.
Proof.
  vm_compute. reflexivity.
Qed.

(* ================================================================== *)
(** * Moving averages stay inside the prices                           *)
(* ================================================================== *)






Lemma len_slice_from_neg {A : Type} (l : list A) (p : Z) :
  (1 <= p <= len l)%Z -> len (slice_from l (- p)) = p.
Proof.
  intros H. rewrite slice_from_last_n by lia. rewrite len_last_n; unfold len in *; lia.
Qed.








(* ================================================================== *)
(** * MACD                                                             *)
(* ================================================================== *)








(* ================================================================== *)
(** * Bollinger bands: order of the bands and the degenerate width     *)
(* ================================================================== *)





(** When the bands of a returned record coincide or are crossed (a band width
    of 0 or less, as on a flat series or with a multiplier of 0), both
    distances default to 0 and the position is "near upper". *)
Theorem bollinger_degenerate_width_is_near_upper
        (pow_half : Q -> Q) (prices : list Q) (period : Z) (std_dev : Q) (r : Bollinger) :
  calculate_bollinger_bands pow_half prices period std_dev = Return (Some r) ->
  upper r - lower r <= 0 ->
  position r = NEAR_UPPER.
Proof.
  intros Hr Hw.
  destruct (bollinger_position _ _ _ _ _ Hr) as (cur & _ & ->).
  unfold classify, fractional_distance.
  now rewrite (proj2 (ltb_ge _ _) Hw).
Qed.

Lemma bollinger_degenerate_width_is_near_upper_witness :
  exists r,
    calculate_bollinger_bands isqrt [6; 6; 6; 6] 4 2 = Return (Some r) /\
    upper r - lower r <= 0 /\
    position r = NEAR_UPPER.
Proof.
  eexists. split; [vm_compute; reflexivity|].
  split; [vm_compute; discriminate|].
  apply (bollinger_degenerate_width_is_near_upper isqrt [6; 6; 6; 6] 4 2);
    [vm_compute; reflexivity | vm_compute; discriminate].
Defined.

(* ================================================================== *)
(** * Average true range is never negative                             *)
(* ================================================================== *)

Lemma for_each_Forall {A B : Type} (f : A -> outcome B) (P : B -> Prop) (xs : list A) :
  (forall x y, f x = Return y -> P y) ->
  forall ys, for_each f xs = Return ys -> Forall P ys.
Proof.
  intros H. induction xs as [|x xs IH]; intros ys E.
  - injection E as <-. constructor.
  - cbn [for_each] in E. destruct (f x) as [y|] eqn:Fx; [|discriminate].
    cbn [bind] in E. destruct (for_each f xs) as [ys'|]; [|discriminate].
    cbn [bind] in E. injection E as <-. constructor; [now apply (H x) | now apply IH].
Qed.

Lemma max3_nonneg (a b c : Q) : 0 <= b -> 0 <= max3 a b c.
Proof.
  intros H. rewrite max3_Qmax.
  apply Qle_trans with (Qmax a b); [|apply Q.le_max_l].
  apply Qle_trans with b; [exact H | apply Q.le_max_r].
Qed.

Lemma true_range_at_nonneg (ohlcv_data : list (list Q)) (i : Z) (tr : Q) :
  true_range_at ohlcv_data i = Return tr -> 0 <= tr.
Proof.
  unfold true_range_at.
  destruct (index ohlcv_data i) as [cur|]; cbn [bind]; [|discriminate].
  destruct (index cur 2) as [h|]; cbn [bind]; [|discriminate].
  destruct (index cur 3) as [l|]; cbn [bind]; [|discriminate].
  destruct (index ohlcv_data (i - 1)) as [prev|]; cbn [bind]; [|discriminate].
  destruct (index prev 4) as [pc|]; cbn [bind]; [|discriminate].
  pose proof (max3_nonneg (h - l) (Qabs (h - pc)) (Qabs (l - pc)) (Qabs_nonneg _)) as N.
  intros E. injection E as <-. exact N.
Qed.

(** For a period of at least 1, whatever number [calculate_atr] returns is
    at least 0, on any rows, also when a high lies below its low: each true
    range is at least the distance from the high to the previous close. *)
Theorem atr_never_negative (ohlcv_data : list (list Q)) (period : Z) (atr : Q) :
  (1 <= period)%Z ->
  calculate_atr ohlcv_data period = Return (Some atr) ->
  0 <= atr.
Proof.
  intros Hp. unfold calculate_atr.
  destruct (len ohlcv_data <? period + 1)%Z; [discriminate|].
  destruct (for_each _ _) as [trs|] eqn:E; cbn [bind]; [|discriminate].
  destruct (len trs <? period)%Z; [discriminate|].
  rewrite truediv_nonzero by (apply inject_Z_nonzero; lia). cbn [bind].
  intros H. injection H as <-.
  apply Qle_shift_div_l.
  - change 0 with (inject_Z 0). rewrite <- Zlt_Qlt. lia.
  - rewrite Qmult_0_l. apply fold_sum_nonneg; [|lra].
    apply Forall_slice_from.
    exact (for_each_Forall _ _ _ (true_range_at_nonneg ohlcv_data) _ E).
Qed.

(** Candles whose highs lie below their lows: the true ranges are 4 and 5
    and the ATR is 9/2. *)
Lemma atr_never_negative_witness :
  exists atr,
    calculate_atr [[0; 10; 9; 12; 11; 500]; [1; 11; 10; 15; 9; 700]; [2; 9; 8; 14; 13; 900]] 2
    = Return (Some atr) /\ 0 <= atr /\ atr == 9 # 2.
Proof.
  eexists. split; [vm_compute; reflexivity|]. split; [|vm_compute; reflexivity].
  apply (atr_never_negative
           [[0; 10; 9; 12; 11; 500]; [1; 11; 10; 15; 9; 700]; [2; 9; 8; 14; 13; 900]] 2);
    [lia | vm_compute; reflexivity].
Defined.

(* ================================================================== *)
(** * RSI on falling prices; the window of SMA and RSI                 *)
(* ================================================================== *)

Lemma fold_sum_pos (l : list Q) (acc : Q) :
  l <> [] -> Forall (fun x => 0 < x) l -> 0 <= acc -> 0 < fold_left Qplus l acc.
Proof.
  intros N H Hacc. destruct H as [|x l Hx Hl]; [contradiction|].
  cbn [fold_left]. apply Qlt_le_trans with (acc + x); [lra|].
  assert (G : forall l b, Forall (fun x => 0 < x) l -> b <= fold_left Qplus l b).
  { clear. intros l b H. revert b. induction H as [|y l Hy _ IH]; intros b; [cbn; lra|].
    cbn [fold_left]. apply Qle_trans with (b + y); [lra | apply IH]. }
  now apply G.
Qed.

Lemma adjacent_falls (prices : list Q) :
  strictly_decreasing prices -> Forall (fun d => d < 0) (adjacent (fun a b => b - a) prices).
Proof.
  induction prices as [|a [|b t] IH]; intros H; try constructor.
  - specialize (H O a b eq_refl eq_refl). lra.
  - apply IH. intros i x y Hx Hy. exact (H (S i) x y Hx Hy).
Qed.

(** On a series in which every price is below the one before it, the RSI
    is 0: there is no gain, so the relative strength is 0. *)
Theorem rsi_is_zero_on_falling_prices (prices : list Q) (period : Z) :
  strictly_decreasing prices ->
  (1 <= period)%Z ->
  (period + 1 <= len prices)%Z ->
  exists v, calculate_rsi prices period = Return (Some v) /\ v == 0.
Proof.
  intros Hfall Hp Hlen. rewrite calculate_rsi_sums by lia. cbv zeta.
  set (ds := slice_from _ _).
  assert (F : Forall (fun d => d < 0) ds).
  { unfold ds. now apply Forall_slice_from, adjacent_falls. }
  assert (Lds : len ds = period).
  { unfold ds. apply len_slice_from_neg. unfold len in *.
    rewrite length_adjacent. lia. }
  assert (G0 : sum (map gain_of ds) == 0).
  { apply fold_sum_zero, Forall_map. revert F. apply Forall_impl. intros d Hd.
    unfold gain_of. destruct (ltb 0 d) eqn:E; [apply ltb_lt in E; lra | reflexivity]. }
  assert (L0 : 0 < sum (map loss_of ds)).
  { apply fold_sum_pos; [| |lra].
    - intros E. apply map_eq_nil in E. rewrite E in Lds. unfold len in Lds. simpl in Lds. lia.
    - apply Forall_map. revert F. apply Forall_impl. intros d Hd.
      unfold loss_of. rewrite (proj2 (ltb_lt d 0) Hd). lra. }
  unfold rsi_of_sums.
  assert (P : 0 < inject_Z period) by (change 0 with (inject_Z 0); rewrite <- Zlt_Qlt; lia).
  rewrite !truediv_nonzero by lra. cbn [bind].
  assert (A : 0 < sum (map loss_of ds) / inject_Z period)
    by (apply Qlt_shift_div_l; [exact P | lra]).
  destruct (Qeq_bool _ 0) eqn:E; [apply Qeq_bool_eq in E; lra|].
  rewrite truediv_nonzero by lra. cbn [bind].
  set (rs := sum (map gain_of ds) / inject_Z period / (sum (map loss_of ds) / inject_Z period)).
  assert (R : rs == 0) by (unfold rs; rewrite G0; field; lra).
  rewrite truediv_nonzero by lra. cbn [bind].
  eexists. split; [reflexivity|]. rewrite R. reflexivity.
Qed.

Lemma rsi_is_zero_on_falling_prices_witness :
  exists v, calculate_rsi [9; 7; 6; 4; 1] 3 = Return (Some v) /\ v == 0.
Proof.
  apply (rsi_is_zero_on_falling_prices [9; 7; 6; 4; 1] 3);
    [| lia | unfold len; simpl; lia].
  intros i a b Ha Hb.
  do 4 (destruct i as [|i];
        [cbn in Ha, Hb; injection Ha as <-; injection Hb as <-;
         unfold Qlt; simpl; lia|]).
  destruct i; discriminate.
Defined.

Lemma adjacent_skipn {A B : Type} (g : A -> A -> B) (k : nat) (l : list A) :
  adjacent g (skipn k l) = skipn k (adjacent g l).
Proof.
  revert l. induction k as [|k IH]; intros l; [reflexivity|].
  destruct l as [|a [|b t]]; try reflexivity.
  - cbn [skipn adjacent]. now destruct k.
  - change (skipn (S k) (a :: b :: t)) with (skipn k (b :: t)).
    change (adjacent g (a :: b :: t)) with (g a b :: adjacent g (b :: t)).
    cbn [skipn]. apply IH.
Qed.

Lemma last_n_skipn {A : Type} (n k : nat) (l : list A) :
  (n + k <= List.length l)%nat -> last_n n (skipn k l) = last_n n l.
Proof.
  intros H. unfold last_n. rewrite skipn_skipn, length_skipn. f_equal. lia.
Qed.

Lemma skipn_length_app {A : Type} (old recent : list A) :
  skipn (List.length old) (old ++ recent) = recent.
Proof.
  rewrite skipn_app, Nat.sub_diag, skipn_all. reflexivity.
Qed.

(** SMA and RSI look at a window only: older prices in front of the last
    [period] prices (SMA) or the last [period + 1] prices (RSI) change
    nothing in the result. *)
Theorem sma_and_rsi_ignore_older_prices (old recent : list Q) (period : Z) :
  (1 <= period)%Z ->
  ((period <= len recent)%Z ->
   calculate_sma (old ++ recent) period = calculate_sma recent period) /\
  ((period + 1 <= len recent)%Z ->
   calculate_rsi (old ++ recent) period = calculate_rsi recent period).
Proof.
  intros Hp.
  assert (La : len (old ++ recent) = (len old + len recent)%Z)
    by (unfold len; rewrite length_app; lia).
  assert (Lo : (0 <= len old)%Z) by (unfold len; lia).
  split; intros Hlen.
  - rewrite !calculate_sma_total by lia.
    rewrite !slice_from_last_n by lia.
    rewrite <- (skipn_length_app old recent) at 2.
    rewrite last_n_skipn; [reflexivity|].
    rewrite length_app. unfold len in Hlen. lia.
  - rewrite !calculate_rsi_sums by lia. cbv zeta.
    rewrite !slice_from_last_n by lia.
    rewrite <- (skipn_length_app old recent) at 3 4.
    rewrite adjacent_skipn, last_n_skipn; [reflexivity|].
    rewrite length_adjacent, length_app. unfold len in Hlen. lia.
Qed.

Lemma sma_and_rsi_ignore_older_prices_witness :
  calculate_sma ([50; 1] ++ [10; 12; 11; 15]) 3 = calculate_sma [10; 12; 11; 15] 3 /\
  calculate_rsi ([50; 1] ++ [10; 12; 11; 15]) 3 = calculate_rsi [10; 12; 11; 15] 3.
Proof.
  destruct (sma_and_rsi_ignore_older_prices [50; 1] [10; 12; 11; 15] 3 ltac:(lia))
    as (Hsma & Hrsi).
  split; [apply Hsma | apply Hrsi]; unfold len; simpl; lia.
Defined.

(* ================================================================== *)
(** * What a returned analysis holds                                   *)
(* ================================================================== *)

Lemma for_each_length {A B : Type} (f : A -> outcome B) (xs : list A) (ys : list B) :
  for_each f xs = Return ys -> List.length ys = List.length xs.
Proof.
  revert ys. induction xs as [|x xs IH]; intros ys E.
  - injection E as <-. reflexivity.
  - cbn [for_each] in E. destruct (f x) as [y|]; [|discriminate].
    cbn [bind] in E. destruct (for_each f xs) as [ys'|]; [|discriminate].
    cbn [bind] in E. injection E as <-. cbn [List.length]. now rewrite (IH ys').
Qed.

(** The steps behind a returned record, read backwards. *)
Lemma analyze_coin_record (exchange : Exchange) (sym : string) (a : CoinAnalysis) :
  analyze_coin exchange sym = Some a ->
  exists ticker rows closes volumes,
    fetch_ticker exchange sym = Return ticker /\
    fetch_ohlcv exchange sym "1d" 60 = Return rows /\
    (50 <= len rows)%Z /\
    for_each (fun candle => index candle 4) rows = Return closes /\
    for_each (fun candle => index candle 5) rows = Return volumes /\
    symbol a = replace sym "/USDT" "" /\
    price a = last ticker /\
    change_24h a = percentage ticker /\
    volume_24h a = quoteVolume ticker /\
    calculate_sma closes 20 = Return (sma_20 a) /\
    calculate_sma closes 50 = Return (sma_50 a) /\
    calculate_rsi closes 14 = Return (rsi a) /\
    calculate_macd closes 12 26 9 = Return (macd a) /\
    calculate_sma volumes 20 = Return (avg_volume_20d a) /\
    volume_ratio_of (quoteVolume ticker) (avg_volume_20d a) = Return (volume_ratio a) /\
    rsi_trend_of closes (rsi a) = Return (rsi_trend a).
Proof.
  unfold analyze_coin, analyze_coin_body.
  destruct (fetch_ticker exchange sym) as [ticker|]; cbn [bind]; [|discriminate].
  destruct (fetch_ohlcv exchange sym "1d" 60) as [rows|]; cbn [bind]; [|discriminate].
  destruct (len rows <? 50)%Z eqn:G; [discriminate|]. apply Z.ltb_ge in G.
  destruct (for_each (fun candle => index candle 4) rows) as [closes|] eqn:Ec;
    cbn [bind]; [|discriminate].
  destruct (for_each (fun candle => index candle 5) rows) as [volumes|] eqn:Ev;
    cbn [bind]; [|discriminate].
  destruct (calculate_sma closes 20) as [s20|] eqn:E20; cbn [bind]; [|discriminate].
  destruct (calculate_sma closes 50) as [s50|] eqn:E50; cbn [bind]; [|discriminate].
  destruct (calculate_rsi closes 14) as [r|] eqn:Er; cbn [bind]; [|discriminate].
  destruct (calculate_macd closes 12 26 9) as [m|] eqn:Em; cbn [bind]; [|discriminate].
  assert (Lv : (20 <=? len volumes)%Z = true).
  { apply Z.leb_le. apply for_each_length in Ev. unfold len in *. lia. }
  rewrite Lv.
  destruct (calculate_sma volumes 20) as [avg|] eqn:Ea; cbn [bind]; [|discriminate].
  destruct (volume_ratio_of (quoteVolume ticker) avg) as [ratio|] eqn:Eq;
    cbn [bind]; [|discriminate].
  destruct (rsi_trend_of closes r) as [t|] eqn:Et; cbn [bind]; [|discriminate].
  intros H. injection H as <-.
  exists ticker, rows, closes, volumes. cbn.
  repeat (split; [first [assumption | reflexivity]|]). assumption.
Qed.



(* ================================================================== *)
(** * Analyses that are lost, and the analysis of rising prices        *)
(* ================================================================== *)

Lemma for_each_raises {A B : Type} (f : A -> outcome B) (xs : list A) (x : A) :
  In x xs -> (exists e, f x = Raise e) -> exists e, for_each f xs = Raise e.
Proof.
  intros Hin (e & He). induction xs as [|y xs IH]; [contradiction|].
  cbn [for_each]. destruct (f y) as [b|e'] eqn:Fy; cbn [bind]; [|now exists e'].
  destruct Hin as [->|Hin]; [rewrite He in Fy; discriminate|].
  destruct (IH Hin) as (e'' & ->). now exists e''.
Qed.

Lemma index_out_of_range {A : Type} (l : list A) (k : Z) :
  (0 <= k)%Z -> (len l <= k)%Z -> index l k = Raise IndexError.
Proof.
  intros H0 H. unfold index.
  destruct (k <? 0)%Z eqn:E; [apply Z.ltb_lt in E; lia|]. rewrite E.
  destruct (nth_error l (Z.to_nat k)) eqn:N; [|reflexivity].
  assert (X : nth_error l (Z.to_nat k) <> None) by (rewrite N; discriminate).
  apply nth_error_Some in X. unfold len in H. lia.
Qed.

(** One row with fewer than six columns among the rows the exchange serves
    is enough to lose the whole analysis: the [IndexError] of the column
    extraction ends in [None]. *)
Theorem malformed_row_loses_analysis (exchange : Exchange) (sym : string)
        (rows : list (list Q)) (row : list Q) :
  fetch_ohlcv exchange sym "1d" 60 = Return rows ->
  In row rows ->
  (len row < 6)%Z ->
  analyze_coin exchange sym = None.
Proof.
  intros Ho Hin Hshort. unfold analyze_coin, analyze_coin_body.
  destruct (fetch_ticker exchange sym) as [ticker|]; cbn [bind]; [|reflexivity].
  rewrite Ho. cbn [bind].
  destruct (len rows <? 50)%Z; [reflexivity|].
  destruct (for_each (fun candle => index candle 4) rows) as [closes|] eqn:Ec;
    cbn [bind]; [|reflexivity].
  destruct (for_each_raises (fun candle => index candle 5) rows row Hin) as (e & ->);
    [|reflexivity].
  exists IndexError. apply index_out_of_range; lia.
Qed.

Lemma malformed_row_loses_analysis_witness :
  let rows := map row_of (sample_candles 50) ++ [[50; 101; 103; 98; 101]] in
  let exchange := {| fetch_ticker := fun _ => Return sample_ticker;
                     fetch_ohlcv := fun _ _ _ => Return rows |} in
  analyze_coin exchange "SOL/USDT" = None.
Proof.
  intros rows exchange.
  apply (malformed_row_loses_analysis exchange "SOL/USDT" rows [50; 101; 103; 98; 101]).
  - reflexivity.
  - apply in_or_app. right. left. reflexivity.
  - vm_compute. reflexivity.
Defined.

(** The body of [analyze_coin] on well-formed rows, up to the volume ratio. *)
Lemma analyze_coin_body_volume (exchange : Exchange) (sym : string) (ticker : Ticker)
      (candles : list Candle) :
  fetch_ticker exchange sym = Return ticker ->
  fetch_ohlcv exchange sym "1d" 60 = Return (map row_of candles) ->
  (50 <= len candles)%Z ->
  let closes := map close candles in
  let avg := sum (last_n 20 (map volume candles)) / inject_Z 20 in
  exists s20 s50 r m t,
    calculate_rsi closes 14 = Return (Some r) /\
    analyze_coin_body exchange sym
    = (ratio <- volume_ratio_of (quoteVolume ticker) (Some avg) ;;
       Return (Some {| symbol := replace sym "/USDT" "";
                       price := last ticker;
                       change_24h := percentage ticker;
                       volume_24h := quoteVolume ticker;
                       sma_20 := Some s20;
                       sma_50 := Some s50;
                       rsi := Some r;
                       rsi_trend := Some t;
                       macd := Some m;
                       volume_ratio := ratio;
                       avg_volume_20d := Some avg |})).
Proof.
  intros Ht Ho Hlen closes avg. unfold analyze_coin_body.
  rewrite Ht, Ho. cbn [bind]. rewrite len_map.
  destruct (len candles <? 50)%Z eqn:E; [apply Z.ltb_lt in E; lia|].
  rewrite closing_prices_of_rows, volumes_of_rows. cbn [bind]. fold closes.
  assert (Lc : len closes = len candles) by apply len_map.
  assert (Lv : len (map volume candles) = len candles) by apply len_map.
  rewrite !(calculate_sma_total closes) by lia. cbn [bind].
  destruct (calculate_rsi_total closes 14) as (r & Hr & _); [lia | lia |].
  destruct (calculate_macd_total closes 12 26 9) as (m & Hm & _); [lia | lia | lia |].
  rewrite Hr, Hm. cbn [bind].
  destruct (20 <=? len (map volume candles))%Z eqn:E20; [|apply Z.leb_gt in E20; lia].
  rewrite calculate_sma_total by lia. cbn [bind].
  rewrite (slice_from_last_n (map volume candles) 20) by lia.
  change (Z.to_nat 20) with 20%nat. fold avg.
  destruct (rsi_trend_of_total closes r) as (t & Ht'); [lia|].
  exists (sum (slice_from closes (- (20))) / inject_Z 20),
         (sum (slice_from closes (- (50))) / inject_Z 50), r, m, t.
  split; [reflexivity|].
  destruct (volume_ratio_of (quoteVolume ticker) (Some avg)) as [ratio|]; cbn [bind];
    [|reflexivity].
  rewrite Ht'. reflexivity.
Qed.

(** When the ticker has no 24h quote volume, the analysis of 50 or more
    well-formed candles is lost as soon as their 20-day average volume is
    positive: the division of the missing volume raises, and the exception
    ends in [None].  With an average volume of 0 or less the record is
    returned, with no volume and no volume ratio. *)
Theorem missing_volume_loses_analysis (exchange : Exchange) (sym : string)
        (ticker : Ticker) (candles : list Candle) :
  fetch_ticker exchange sym = Return ticker ->
  quoteVolume ticker = None ->
  fetch_ohlcv exchange sym "1d" 60 = Return (map row_of candles) ->
  (50 <= len candles)%Z ->
  let avg := sum (last_n 20 (map volume candles)) / inject_Z 20 in
  (0 < avg -> analyze_coin exchange sym = None) /\
  (avg <= 0 ->
   exists a, analyze_coin exchange sym = Some a /\
             volume_24h a = None /\ volume_ratio a = None /\
             avg_volume_20d a = Some avg).
Proof.
  intros Ht Hv Ho Hlen avg.
  destruct (analyze_coin_body_volume exchange sym ticker candles Ht Ho Hlen)
    as (s20 & s50 & r & m & t & _ & Hbody).
  fold avg in Hbody. unfold analyze_coin. rewrite Hbody, Hv.
  unfold volume_ratio_of, truthy. split; intros Havg.
  - destruct (Qeq_bool avg 0) eqn:Z0; [apply Qeq_bool_eq in Z0; lra|].
    now rewrite (proj2 (ltb_lt 0 avg) Havg).
  - assert (G : negb (Qeq_bool avg 0) && ltb 0 avg = false).
    { rewrite (proj2 (ltb_ge 0 avg) Havg). apply andb_false_r. }
    rewrite G. cbn [bind]. eexists. split; [reflexivity|]. repeat split.
Qed.

Lemma missing_volume_loses_analysis_witness :
  let ticker := {| last := Some 105; percentage := Some (3 # 2); quoteVolume := None |} in
  let exchange := {| fetch_ticker := fun _ => Return ticker;
                     fetch_ohlcv := fun _ _ _ => Return (map row_of (sample_candles 50)) |} in
  analyze_coin exchange "BNB/USDT" = None.
Proof.
  intros ticker exchange.
  destruct (missing_volume_loses_analysis exchange "BNB/USDT" ticker (sample_candles 50)
              eq_refl eq_refl eq_refl) as (Hlost & _).
  - vm_compute. discriminate.
  - apply Hlost. vm_compute. reflexivity.
Defined.

Lemma calculate_rsi_rising (prices : list Q) (period : Z) :
  non_decreasing prices -> (1 <= period)%Z -> (period + 1 <= len prices)%Z ->
  calculate_rsi prices period = Return (Some 100).
Proof.
  intros Hmono Hp Hlen. rewrite calculate_rsi_sums by lia. cbv zeta.
  set (ds := slice_from _ _).
  assert (Z0 : sum (map loss_of ds) == 0).
  { apply fold_sum_zero, Forall_map.
    assert (F : Forall (fun d => 0 <= d) ds)
      by (unfold ds; now apply Forall_slice_from, adjacent_rises).
    revert F. apply Forall_impl. intros d. apply loss_of_rise. }
  unfold rsi_of_sums.
  rewrite !truediv_nonzero by (apply inject_Z_nonzero; lia). cbn [bind].
  rewrite (Qeq_eq_bool (sum (map loss_of ds) / inject_Z period) 0); [reflexivity|].
  rewrite Z0. field. apply inject_Z_nonzero. lia.
Qed.

(** A coin whose closing prices never fall over the served window, a flat
    market included, gets an RSI of 100 and is flagged OVERBOUGHT, in the
    alerts and in the status column, and never BULLISH SETUP. *)
Theorem rising_closes_are_flagged_overbought (exchange : Exchange) (sym : string)
        (candles : list Candle) (a : CoinAnalysis) :
  fetch_ohlcv exchange sym "1d" 60 = Return (map row_of candles) ->
  non_decreasing (map close candles) ->
  analyze_coin exchange sym = Some a ->
  rsi a = Some 100 /\
  In OVERBOUGHT (screen_coin (Some a)) /\
  ~ In BULLISH_SETUP (screen_coin (Some a)) /\
  summary_status a = "🔴 Overbought"%string.
Proof.
  intros Ho Hmono Ha.
  destruct (analyze_coin_record _ _ _ Ha)
    as (ticker & rows & closes & volumes & _ & Ho' & G & Ec & _ & _ & _ & _ & _ &
        _ & _ & Er & _).
  rewrite Ho in Ho'. injection Ho' as <-.
  rewrite closing_prices_of_rows in Ec. injection Ec as <-.
  rewrite len_map in G.
  rewrite calculate_rsi_rising in Er;
    [| exact Hmono | lia | rewrite len_map; lia].
  injection Er as Er. symmetry in Er.
  split; [exact Er|]. split; [|split].
  - apply overbought_alert. exists 100. split; [exact Er | reflexivity].
  - rewrite bullish_setup_alert.
    intros (p & s20 & s50 & m & r & _ & _ & _ & _ & Hr & _ & _ & _ & _ & _ & _ & _ & R).
    rewrite Er in Hr. injection Hr as <-. revert R. unfold Qle. simpl. lia.
  - unfold summary_status. rewrite Er. reflexivity.
Qed.

Lemma rising_closes_are_flagged_overbought_witness :
  let candles := map (fun k => mkCandle (inject_Z (Z.of_nat k)) 7 7 7 7 1000) (seq 0 50) in
  let exchange := {| fetch_ticker := fun _ => Return sample_ticker;
                     fetch_ohlcv := fun _ _ _ => Return (map row_of candles) |} in
  exists a,
    analyze_coin exchange "XRP/USDT" = Some a /\
    rsi a = Some 100 /\
    In OVERBOUGHT (screen_coin (Some a)) /\
    ~ In BULLISH_SETUP (screen_coin (Some a)) /\
    summary_status a = "🔴 Overbought"%string.
Proof.
  intros candles exchange. eexists. split; [vm_compute; reflexivity|].
  apply (rising_closes_are_flagged_overbought exchange "XRP/USDT" candles).
  - reflexivity.
  - assert (F : Forall (fun x => x = 7) (map close candles))
      by (vm_compute; repeat constructor).
    rewrite Forall_forall in F. intros i x y Hx Hy.
    apply nth_error_In in Hx, Hy. rewrite (F x Hx), (F y Hy). apply Qle_refl.
  - vm_compute. reflexivity.
Defined.

(* ================================================================== *)
(** * The alert list as a whole                                        *)
(* ================================================================== *)

Lemma breakdown_risk_alert (c : CoinAnalysis) :
  In BREAKDOWN_RISK (screen_coin (Some c)) <->
  exists p s20 s50 m r,
    price c = Some p /\ sma_20 c = Some s20 /\ sma_50 c = Some s50 /\
    macd c = Some m /\ rsi c = Some r /\ rsi_trend c = Some "DOWN"%string /\
    ~ p == 0 /\ ~ s20 == 0 /\ ~ s50 == 0 /\
    p < s20 /\ p < s50 /\ String.prefix "🔴" (trend m) = true.
Proof.
  rewrite in_screen_coin. unfold breakdown_risk_rule. split.
  - intros [[_ H] | [[_ H] | [[_ H] | [[_ H] | [H _]]]]]; try discriminate.
    destruct (price c) as [p|], (sma_20 c) as [s20|], (sma_50 c) as [s50|],
             (macd c) as [m|], (rsi c) as [r|], (rsi_trend c) as [t|];
      cbn [truthy_num is_some cmp_present trend_startswith truthy_str andb] in H;
      rewrite ?andb_false_r in H; try discriminate.
    exists p, s20, s50, m, r. unfold truthy in *.
    repeat match goal with
           | X : (_ && _) = true |- _ => apply andb_prop in X; destruct X
           | X : (_ =? _)%string = true |- _ => apply String.eqb_eq in X
           | X : negb (Qeq_bool _ _) = true |- _ => apply negb_true_iff, Qeq_bool_neq in X
           | X : ltb _ _ = true |- _ => apply ltb_lt in X
           end.
    subst t. repeat split; assumption.
  - intros (p & s20 & s50 & m & r & -> & -> & -> & -> & -> & -> & Hp & H20 & H50 &
            L20 & L50 & T).
    right; right; right; right. split; [|reflexivity].
    cbn [truthy_num is_some cmp_present trend_startswith truthy_str]. unfold truthy.
    assert (N : forall x, ~ x == 0 -> negb (Qeq_bool x 0) = true).
    { intros x Hx. apply negb_true_iff. destruct (Qeq_bool x 0) eqn:E; [|reflexivity].
      apply Qeq_bool_eq in E. contradiction. }
    rewrite !N by assumption.
    rewrite (proj2 (ltb_lt _ _) L20), (proj2 (ltb_lt _ _) L50), T.
    reflexivity.
Qed.

Lemma rule_of_alert (c : CoinAnalysis) :
  (oversold_rule c = true -> In OVERSOLD (screen_coin (Some c))) /\
  (overbought_rule c = true -> In OVERBOUGHT (screen_coin (Some c))) /\
  (bullish_setup_rule c = true -> In BULLISH_SETUP (screen_coin (Some c))) /\
  (breakdown_risk_rule c = true -> In BREAKDOWN_RISK (screen_coin (Some c))).
Proof.
  rewrite !in_screen_coin. repeat split; intros H; tauto.
Qed.

Lemma bullish_excludes (c : CoinAnalysis) :
  In BULLISH_SETUP (screen_coin (Some c)) ->
  ~ In OVERSOLD (screen_coin (Some c)) /\
  ~ In OVERBOUGHT (screen_coin (Some c)) /\
  ~ In BREAKDOWN_RISK (screen_coin (Some c)).
Proof.
  rewrite bullish_setup_alert, oversold_alert, overbought_alert, breakdown_risk_alert.
  intros (p & s20 & s50 & m & r & Hp & H20 & _ & _ & Hr & _ & _ & _ & L20 & _ & _ & R1 & R2).
  repeat split.
  - intros (r' & Hr' & L). rewrite Hr in Hr'. injection Hr' as <-. lra.
  - intros (r' & Hr' & L). rewrite Hr in Hr'. injection Hr' as <-. lra.
  - intros (p' & s20' & _ & _ & _ & Hp' & H20' & _ & _ & _ & _ & _ & _ & _ & L & _).
    rewrite Hp in Hp'. rewrite H20 in H20'. injection Hp' as <-. injection H20' as <-. lra.
Qed.

Lemma oversold_excludes (c : CoinAnalysis) :
  In OVERSOLD (screen_coin (Some c)) -> ~ In OVERBOUGHT (screen_coin (Some c)).
Proof.
  rewrite oversold_alert, overbought_alert.
  intros (r & Hr & L) (r' & Hr' & L'). rewrite Hr in Hr'. injection Hr' as <-. lra.
Qed.

(** The alert list has no label twice and at most three labels; BULLISH
    SETUP never comes with OVERSOLD, OVERBOUGHT or BREAKDOWN RISK, so a list
    that holds it is that label alone or VOLUME SPIKE followed by it. *)
Theorem alert_list_shape (coin_data : option CoinAnalysis) :
  let alerts := screen_coin coin_data in
  NoDup alerts /\
  (List.length alerts <= 3)%nat /\
  (In BULLISH_SETUP alerts ->
   alerts = [BULLISH_SETUP] \/ alerts = [VOLUME_SPIKE; BULLISH_SETUP]).
Proof.
  destruct coin_data as [c|]; cbv zeta.
  2:{ split; [constructor|]. split; [simpl; lia | intros []]. }
  destruct (rule_of_alert c) as (R1 & R2 & R4 & R5).
  pose proof (bullish_excludes c) as B. pose proof (oversold_excludes c) as O.
  unfold screen_coin in *. cbv zeta in *.
  destruct (oversold_rule c), (overbought_rule c), (volume_spike_rule c),
           (bullish_setup_rule c), (breakdown_risk_rule c);
    try (exfalso; apply (O (R1 eq_refl)); exact (R2 eq_refl));
    try (exfalso; apply (proj1 (B (R4 eq_refl))); exact (R1 eq_refl));
    try (exfalso; apply (proj1 (proj2 (B (R4 eq_refl)))); exact (R2 eq_refl));
    try (exfalso; apply (proj2 (proj2 (B (R4 eq_refl)))); exact (R5 eq_refl));
    clear; cbn [append_if app];
    (split; [repeat constructor; simpl; intuition discriminate|]);
    (split; [simpl; lia|]); simpl; intuition discriminate.
Qed.

(** The spec's crafted record (price 110 above the averages 100 and 90, RSI
    50, MACD bullish) with a volume ratio of 3. *)
Lemma alert_list_shape_witness :
  let c := {| symbol := "BTC"; price := Some 110; change_24h := Some 2;
              volume_24h := Some 3000; sma_20 := Some 100; sma_50 := Some 90;
              rsi := Some 50; rsi_trend := Some "UP"%string;
              macd := Some {| macd_line := 2; signal_line := 1; histogram := 1;
                              trend := BULLISH |};
              volume_ratio := Some 3; avg_volume_20d := Some 1000 |} in
  screen_coin (Some c) = [VOLUME_SPIKE; BULLISH_SETUP].
Proof.
  intros c.
  destruct (alert_list_shape (Some c)) as (_ & _ & H).
  destruct H as [H|H]; [vm_compute; tauto | vm_compute in H; discriminate | exact H].
Defined.



(** The status column of the summary table agrees with the alerts: it reads
    Oversold exactly when OVERSOLD is among the alerts, Overbought exactly
    when OVERBOUGHT is, and it is empty exactly when the RSI is missing. *)
Theorem summary_status_agrees_with_alerts (c : CoinAnalysis) :
  (summary_status c = "🟢 Oversold"%string <-> In OVERSOLD (screen_coin (Some c))) /\
  (summary_status c = "🔴 Overbought"%string <-> In OVERBOUGHT (screen_coin (Some c))) /\
  (summary_status c = ""%string <-> rsi c = None).
Proof.
  rewrite oversold_alert, overbought_alert. unfold summary_status.
  destruct (rsi c) as [r|].
  - destruct (ltb r 30) eqn:L; [|destruct (ltb 70 r) eqn:H].
    + apply ltb_lt in L. repeat split; try discriminate.
      * intros _. exists r. now split.
      * intros (r' & E & H). injection E as <-. lra.
    + apply ltb_ge in L. apply ltb_lt in H. repeat split; try discriminate.
      * intros (r' & E & H'). injection E as <-. lra.
      * intros _. exists r. now split.
    + apply ltb_ge in L. apply ltb_ge in H. repeat split; try discriminate.
      * intros (r' & E & H'). injection E as <-. lra.
      * intros (r' & E & H'). injection E as <-. lra.
  - repeat split; try discriminate; intros (r & E & _); discriminate.
Qed.

(* ================================================================== *)
(** * The batch run                                                    *)
(* ================================================================== *)

Lemma replace_pair (coin : string) :
  slash_free coin -> replace (coin ++ "/USDT") "/USDT" "" = coin.
Proof.
  unfold replace, slash_free. induction coin as [|c rest IH]; intros H.
  - reflexivity.
  - change ((String c rest ++ "/USDT")%string) with (String c (rest ++ "/USDT")).
    cbn [replace_from String.prefix].
    destruct (ascii_dec "/" c) as [E|_].
    + elim H. left. now symmetry.
    + f_equal. apply IH. intros Hin. apply H. now right.
Qed.

(** The symbol of a record is the coin name it was asked for: the pair
    [coin/USDT] built by the batch run loses its quote currency again, for
    every coin name without a slash. *)
Theorem symbol_is_the_coin_name (exchange : Exchange) (coin : string) (a : CoinAnalysis) :
  slash_free coin ->
  analyze_coin exchange (coin ++ "/USDT") = Some a ->
  symbol a = coin.
Proof.
  intros Hfree Ha.
  destruct (analyze_coin_record _ _ _ Ha)
    as (_ & _ & _ & _ & _ & _ & _ & _ & _ & Hs & _).
  rewrite Hs. now apply replace_pair.
Qed.

Lemma symbol_is_the_coin_name_witness :
  exists a, analyze_coin (sample_exchange 50) ("HYPE" ++ "/USDT") = Some a /\
            symbol a = "HYPE"%string.
Proof.
  eexists. split; [vm_compute; reflexivity|].
  apply (symbol_is_the_coin_name (sample_exchange 50) "HYPE").
  - unfold slash_free. simpl. intuition discriminate.
  - vm_compute. reflexivity.
Defined.

Lemma screening_loop_maps (exchange : Exchange) (coin_list : list string)
      (all_coins : list (option CoinAnalysis)) (all_alerts : list (list string)) :
  screening_loop exchange coin_list all_coins all_alerts
  = (all_coins ++ map (fun coin => analyze_coin exchange (coin ++ "/USDT")) coin_list,
     all_alerts ++ map (fun coin => screen_coin (analyze_coin exchange (coin ++ "/USDT")))
                       coin_list).
Proof.
  revert all_coins all_alerts.
  induction coin_list as [|coin rest IH]; intros all_coins all_alerts.
  - cbn. now rewrite !app_nil_r.
  - cbn [screening_loop map]. cbv zeta. rewrite IH, <- !app_assoc. cbn [app].
    destruct (analyze_coin exchange (coin ++ "/USDT")) as [a|]; reflexivity.
Qed.

(** The batch run keeps its two lists aligned with the coin list: each has
    one entry per coin, in order; the entry of [all_alerts] is the screening
    of the entry of [all_coins]; and a coin whose analysis is lost has the
    entries [None] and the empty list, without any effect on the others. *)
Theorem batch_lists_stay_aligned (exchange : Exchange) (coin_list : list string) :
  let all_coins := fst (run_multi_coin_screener exchange coin_list) in
  let all_alerts := snd (run_multi_coin_screener exchange coin_list) in
  all_coins = map (fun coin => analyze_coin exchange (coin ++ "/USDT")) coin_list /\
  all_alerts = map screen_coin all_coins /\
  List.length all_coins = List.length coin_list /\
  List.length all_alerts = List.length coin_list /\
  (forall i, nth_error all_coins i = Some None -> nth_error all_alerts i = Some []).
Proof.
  cbv zeta. unfold run_multi_coin_screener. rewrite screening_loop_maps. cbn [fst snd app].
  split; [reflexivity|]. split; [now rewrite map_map|].
  rewrite !length_map. split; [reflexivity|]. split; [reflexivity|].
  intros i. rewrite !nth_error_map.
  destruct (nth_error coin_list i) as [coin|]; cbn [option_map]; [|discriminate].
  intros H. injection H as ->. reflexivity.
Qed.

(** Three coins of which the second cannot be fetched. *)
Lemma batch_lists_stay_aligned_witness :
  let exchange :=
    {| fetch_ticker := fun sym => if String.eqb sym "BAD/USDT"
                                  then Raise ExchangeError else Return sample_ticker;
       fetch_ohlcv := fun _ _ _ => Return (map row_of (sample_candles 50)) |} in
  let result := run_multi_coin_screener exchange ["BTC"; "BAD"; "ETH"]%string in
  nth_error (fst result) 1 = Some None /\
  nth_error (snd result) 1 = Some [] /\
  List.length (fst result) = 3%nat /\ List.length (snd result) = 3%nat /\
  is_some (nth 0 (fst result) None) = true /\ is_some (nth 2 (fst result) None) = true.
Proof.
  intros exchange result.
  destruct (batch_lists_stay_aligned exchange ["BTC"; "BAD"; "ETH"]%string)
    as (_ & _ & L1 & L2 & Hnone).
  assert (N : nth_error (fst result) 1 = Some None) by (vm_compute; reflexivity).
  split; [exact N|]. split; [exact (Hnone 1%nat N)|].
  split; [exact L1|]. split; [exact L2|].
  split; vm_compute; reflexivity.
Defined.

(* ================================================================== *)
(** * Periods the length test lets through                             *)
(* ================================================================== *)

(** A period of 0 is not answered with [None]: the length test passes and
    the division by the period raises [ZeroDivisionError], in SMA, EMA and
    Bollinger bands on any series, and in RSI and ATR as soon as there is one
    price or one candle. *)
Theorem zero_period_raises (pow_half : Q -> Q) (prices : list Q) (candles : list Candle)
        (std_dev : Q) :
  calculate_sma prices 0 = Raise ZeroDivisionError /\
  calculate_ema prices 0 = Raise ZeroDivisionError /\
  calculate_bollinger_bands pow_half prices 0 std_dev = Raise ZeroDivisionError /\
  (prices <> [] -> calculate_rsi prices 0 = Raise ZeroDivisionError) /\
  (candles <> [] -> calculate_atr (map row_of candles) 0 = Raise ZeroDivisionError).
Proof.
  assert (G : forall A (l : list A), (len l <? 0)%Z = false)
    by (intros; apply Z.ltb_ge; unfold len; lia).
  assert (S : calculate_sma prices 0 = Raise ZeroDivisionError).
  { unfold calculate_sma. rewrite G. now rewrite truediv_zero. }
  split; [exact S|]. split; [|split; [|split]].
  - unfold calculate_ema. rewrite G. now rewrite truediv_zero.
  - unfold calculate_bollinger_bands. rewrite G, S. reflexivity.
  - intros N. rewrite calculate_rsi_sums.
    + cbv zeta. unfold rsi_of_sums. now rewrite truediv_zero.
    + destruct prices; [contradiction|]. unfold len. cbn [List.length]. lia.
  - intros N. unfold calculate_atr. rewrite true_ranges_loop, len_map.
    destruct (len candles <? 0 + 1)%Z eqn:E.
    { apply Z.ltb_lt in E. destruct candles; [contradiction|].
      unfold len in E. cbn [List.length] in E. lia. }
    cbn [bind]. rewrite G. now rewrite truediv_zero.
Qed.

Lemma zero_period_raises_witness :
  calculate_rsi [10; 12; 11] 0 = Raise ZeroDivisionError /\
  calculate_atr (map row_of (sample_candles 3)) 0 = Raise ZeroDivisionError.
Proof.
  destruct (zero_period_raises isqrt [10; 12; 11] (sample_candles 3) 2)
    as (_ & _ & _ & Hrsi & Hatr).
  split; [apply Hrsi | apply Hatr]; discriminate.
Defined.

Lemma macd_history_skips (prices : list Q) (fast slow : Z) (idxs : list Z) :
  (1 <= slow)%Z ->
  (len prices < fast)%Z ->
  Forall (fun i => slow - 1 <= i < len prices)%Z idxs ->
  forall acc, macd_history prices fast slow idxs acc = Return acc.
Proof.
  intros Hs Hf H. induction H as [|i idxs Hi _ IH]; intros acc; [reflexivity|].
  cbn [macd_history]. cbv zeta.
  assert (W : len (slice_to prices (i + 1)) = (i + 1)%Z) by (apply len_slice_to; lia).
  assert (F : calculate_ema (slice_to prices (i + 1)) fast = Return None).
  { unfold calculate_ema. now rewrite (proj2 (Z.ltb_lt _ _)) by lia. }
  rewrite F. cbn [bind].
  destruct (calculate_ema_total (slice_to prices (i + 1)) slow) as (s & ->); [lia | lia |].
  cbn [bind]. apply IH.
Qed.

(** With a fast period longer than the whole series the MACD is [None] even
    though the series has the [slow + signal] prices the first test asks for:
    no window is long enough for the fast average, so the history stays
    empty. *)
Theorem macd_unavailable_when_fast_exceeds_series (prices : list Q) (fast slow signal : Z) :
  (1 <= slow)%Z ->
  (1 <= signal)%Z ->
  (slow + signal <= len prices)%Z ->
  (len prices < fast)%Z ->
  calculate_macd prices fast slow signal = Return None.
Proof.
  intros Hs Hg Hlen Hf. unfold calculate_macd.
  destruct (len prices <? slow + signal)%Z eqn:E; [reflexivity|].
  rewrite macd_history_skips; [| exact Hs | exact Hf |].
  - cbn [bind]. now rewrite (proj2 (Z.ltb_lt (len (@nil Q)) signal)) by (unfold len; simpl; lia).
  - apply Forall_forall. intros i Hi. now apply in_range in Hi.
Qed.

Lemma macd_unavailable_when_fast_exceeds_series_witness :
  calculate_macd [4; 3; 5; 4; 3; 5; 4] 9 3 2 = Return None.
Proof.
  apply (macd_unavailable_when_fast_exceeds_series [4; 3; 5; 4; 3; 5; 4] 9 3 2);
    try lia; unfold len; simpl; lia.
Defined.
